(** * SCLIP desktop client: realtime synchronisation layer

    A shallow embedding of the three TypeScript modules that keep the
    client's view of a session consistent:

    - [useRealtimeStore] (the Zustand message store and its reducer
      [handleMessage]),
    - [useWebSocket] (the connection manager), and
    - [useStreamingMessage] (the typewriter presentation adapter),

    followed by the properties proved about them.

    Messages arrive as the result of [JSON.parse], so the reducer runs on
    dynamically typed data.  The embedding therefore starts with a small
    model of JavaScript values and of the operators the source applies to
    them. *)

From Stdlib Require Import QArith Ascii.
From stdpp Require Import gmap strings list fin_maps pretty.

Close Scope Q_scope.
Set Warnings "-register-all".

(** ** JavaScript values *)

Module JS.

(** A JavaScript value as the store can hold it: [undefined], [null],
    booleans, numbers, strings, arrays and plain objects.  A finite IEEE
    double is a rational, and [JSON.parse] never yields [NaN] or an
    infinity, so numbers are carried as [Q]; the code only tests them for
    truthiness and passes them on.  Objects are finite maps from property
    names to values. *)
Inductive value : Type :=
  | VUndef
  | VNull
  | VBool (b : bool)
  | VNum (q : Q)
  | VStr (s : string)
  | VArr (l : list value)
  | VObj (o : gmap string value).

#[global] Instance value_inhabited : Inhabited value := populate VUndef.

(** A JavaScript object; [o !!! k] is the property read [o.k], which is
    [undefined] for a missing key. *)
Abbreviation object := (gmap string value).

Definition num (n : nat) : value := VNum (inject_Z (Z.of_nat n)).

(** [ToBoolean]. *)
Definition truthy (v : value) : bool :=
  match v with
  | VUndef | VNull => false
  | VBool b => b
  | VNum q => negb (Qeq_bool q 0)
  | VStr s => negb (String.eqb s "")
  | VArr _ | VObj _ => true
  end.

Definition nullish (v : value) : bool :=
  match v with
  | VUndef | VNull => true
  | _ => false
  end.

(** [a || b], [a && b] and [a ?? b]. *)
Definition or (a b : value) : value := if truthy a then a else b.
Definition and (a b : value) : value := if truthy a then b else a.
Definition coalesce (a b : value) : value := if nullish a then b else a.

(** The property read [v.k] for a property name [k] that is not an array
    index, on a value that is not [null] or [undefined] (on those the read
    throws, see [Store.prop]); with [undefined] for them it is the optional
    read [v?.k].  Primitives and arrays produced by [JSON.parse] own no
    named property besides [length]. *)
Definition get (v : value) (k : string) : value :=
  match v with
  | VObj o => o !!! k
  | VArr l => if String.eqb k "length" then num (length l) else VUndef
  | VStr s => if String.eqb k "length" then num (String.length s) else VUndef
  | _ => VUndef
  end.

(** The indexed read [v?.[i]]. *)
Definition at_index (v : value) (i : nat) : value :=
  match v with
  | VArr l => default VUndef (l !! i)
  | VStr s => from_option (fun c => VStr (String c "")) VUndef (String.get i s)
  | VObj o => o !!! (pretty i : string)
  | _ => VUndef
  end.

(** Strict equality [a === b].  Primitives compare by value.  Arrays and
    objects compare by reference; every dispatched message is decoded from
    its own frame or built as a fresh literal, so two values met by a
    comparison below never share a reference. *)
Definition strict_eq (a b : value) : bool :=
  match a, b with
  | VUndef, VUndef | VNull, VNull => true
  | VBool x, VBool y => Bool.eqb x y
  | VNum x, VNum y => Qeq_bool x y
  | VStr x, VStr y => String.eqb x y
  | _, _ => false
  end.

(** [v === "literal"]. *)
Definition is_str (v : value) (s : string) : bool := strict_eq v (VStr s).

(** [v === 0]. *)
Definition is_zero (v : value) : bool := strict_eq v (VNum 0).

(** The own enumerable properties copied by the spread [{...v}]: those of
    an object, the elements of an array under their indices, the code units
    of a string under theirs, nothing for any other value. *)
Definition indexed (l : list value) : object :=
  list_to_map (imap (fun i x => ((pretty i : string), x)) l).

Definition units (s : string) : list value :=
  (fun c => VStr (String c "")) <$> String.list_ascii_of_string s.

Definition spread (v : value) : object :=
  match v with
  | VObj o => o
  | VArr l => indexed l
  | VStr s => indexed (units s)
  | _ => ∅
  end.

(** The object literal [{...a, ...b}]: the properties of [b] win. *)
Definition merge (a b : object) : object := b ∪ a.

End JS.

(** ** String methods used by the store *)

Module Str.

(** [s.split(sep)] for a non-empty separator: the pieces of [s] between
    the successive, non-overlapping occurrences of [sep], scanning from the
    left.  [skip] counts the code units of a matched separator still to be
    passed over; [cur] is the piece being read. *)
Fixpoint split_go (sep s : string) (skip : nat) (cur : string) : list string :=
  match s with
  | EmptyString => [cur]
  | String c s' =>
      match skip with
      | S k => split_go sep s' k cur
      | O =>
          if String.prefix sep s
          then cur :: split_go sep s' (String.length sep - 1) ""
          else split_go sep s' 0 (cur +:+ String c "")
      end
  end.

Definition split (sep s : string) : list string := split_go sep s 0 "".

(** [arr.pop()] on the array a [split] returns, which is never empty. *)
Definition pop (l : list string) : string := default "" (last l).

(** [s.includes(sub)]. *)
Fixpoint includes (sub s : string) : bool :=
  String.prefix sub s ||
  match s with
  | EmptyString => false
  | String _ s' => includes sub s'
  end.

End Str.

(** ** The message store ([useRealtimeStore]) *)

Module Store.
Import JS.

(** *** Store data.  TypeScript's field types are erased at run time and
    the fields are filled from decoded JSON, so every field is a [value].
    An optional field left out of an object literal reads [undefined]. *)

Inductive ConnectionStatus : Type :=
  | connecting
  | connected
  | reconnecting
  | disconnected.

Module ToolCall.
Record t : Type := mk { tool : value; args : value; step : value; description : value }.
End ToolCall.

Module ToolResult.
Record t : Type :=
  mk { tool : value; step : value; result : value; success : value; error : value }.
End ToolResult.

Module Progress.
Record t : Type := mk { percent : value; status : value; step : value }.
End Progress.

Module ScriptContent.
Record t : Type := mk { id : value; content : value; timestamp : value; tool : value }.
End ScriptContent.

Module ProjectFile.
Record t : Type :=
  mk { id : value; name : value; type : value; path : value; url : value;
       size : value; timestamp : value; thumbnail : value; duration : value;
       source : value }.
End ProjectFile.

Module VideoPreview.
Record t : Type :=
  mk { id : value; path : value; timestamp : value; status : value; thumbnail : value }.
End VideoPreview.

Module UserContext.
Record t : Type := mk { style : value; tone : value; length : value; preferences : value }.
End UserContext.

Record RealtimeStore : Type := mkStore {
  connectionStatus : ConnectionStatus;
  error : value;
  messages : list object;
  toolCalls : list ToolCall.t;
  toolResults : list ToolResult.t;
  progress : Progress.t;
  scripts : list ScriptContent.t;
  projectFiles : list ProjectFile.t;
  videoPreviews : list VideoPreview.t;
  selectedFile : option ProjectFile.t;
  userContext : UserContext.t
}.

(** The state [create] starts from. *)
Definition initial : RealtimeStore := {|
  connectionStatus := disconnected;
  error := VNull;
  messages := [];
  toolCalls := [];
  toolResults := [];
  progress := Progress.mk (VNum 0) (VStr "") (VStr "");
  scripts := [];
  projectFiles := [];
  videoPreviews := [];
  selectedFile := None;
  userContext :=
    UserContext.mk (VStr "cinematic") (VStr "professional") (VStr "medium") (VObj ∅)
|}.

(** The object literals [{ ...state, field: v }]. *)
Definition with_connectionStatus (v : ConnectionStatus) (s : RealtimeStore) :=
  mkStore v (error s) (messages s) (toolCalls s) (toolResults s) (progress s)
    (scripts s) (projectFiles s) (videoPreviews s) (selectedFile s) (userContext s).
Definition with_error (v : value) (s : RealtimeStore) :=
  mkStore (connectionStatus s) v (messages s) (toolCalls s) (toolResults s)
    (progress s) (scripts s) (projectFiles s) (videoPreviews s) (selectedFile s)
    (userContext s).
Definition with_messages (v : list object) (s : RealtimeStore) :=
  mkStore (connectionStatus s) (error s) v (toolCalls s) (toolResults s)
    (progress s) (scripts s) (projectFiles s) (videoPreviews s) (selectedFile s)
    (userContext s).
Definition with_toolCalls (v : list ToolCall.t) (s : RealtimeStore) :=
  mkStore (connectionStatus s) (error s) (messages s) v (toolResults s)
    (progress s) (scripts s) (projectFiles s) (videoPreviews s) (selectedFile s)
    (userContext s).
Definition with_toolResults (v : list ToolResult.t) (s : RealtimeStore) :=
  mkStore (connectionStatus s) (error s) (messages s) (toolCalls s) v
    (progress s) (scripts s) (projectFiles s) (videoPreviews s) (selectedFile s)
    (userContext s).
Definition with_progress (v : Progress.t) (s : RealtimeStore) :=
  mkStore (connectionStatus s) (error s) (messages s) (toolCalls s)
    (toolResults s) v (scripts s) (projectFiles s) (videoPreviews s)
    (selectedFile s) (userContext s).
Definition with_scripts (v : list ScriptContent.t) (s : RealtimeStore) :=
  mkStore (connectionStatus s) (error s) (messages s) (toolCalls s)
    (toolResults s) (progress s) v (projectFiles s) (videoPreviews s)
    (selectedFile s) (userContext s).
Definition with_projectFiles (v : list ProjectFile.t) (s : RealtimeStore) :=
  mkStore (connectionStatus s) (error s) (messages s) (toolCalls s)
    (toolResults s) (progress s) (scripts s) v (videoPreviews s)
    (selectedFile s) (userContext s).
Definition with_videoPreviews (v : list VideoPreview.t) (s : RealtimeStore) :=
  mkStore (connectionStatus s) (error s) (messages s) (toolCalls s)
    (toolResults s) (progress s) (scripts s) (projectFiles s) v
    (selectedFile s) (userContext s).
Definition with_selectedFile (v : option ProjectFile.t) (s : RealtimeStore) :=
  mkStore (connectionStatus s) (error s) (messages s) (toolCalls s)
    (toolResults s) (progress s) (scripts s) (projectFiles s)
    (videoPreviews s) v (userContext s).
Definition with_userContext (v : UserContext.t) (s : RealtimeStore) :=
  mkStore (connectionStatus s) (error s) (messages s) (toolCalls s)
    (toolResults s) (progress s) (scripts s) (projectFiles s)
    (videoPreviews s) (selectedFile s) v.

(** *** Effects of the reducer.  The updater passed to [set] reads the
    clock ([Date.now()], [new Date()]) and draws random numbers
    ([Math.random()]) to mint identifiers, and a property read or a method
    call on the wrong kind of value throws.  It is written in a small monad
    over the count of reads and draws made so far, with a normal or an
    abrupt completion. *)

Inductive exn : Type :=
  | TypeError
  | InvalidStateError.

Inductive completion (A : Type) : Type :=
  | Normal (a : A)
  | Throw (e : exn).
Arguments Normal {A} a.
Arguments Throw {A} e.

(** What the run-time environment answers. *)
Record Env : Type := {
  (** the time value, in milliseconds, of the [k]-th clock read *)
  clock : nat -> Z;
  (** [Date.prototype.toISOString] of a time value *)
  iso : Z -> string;
  (** the text [Math.random()] interpolates to, at the [k]-th draw *)
  random : nat -> string;
  (** [String.prototype.toLowerCase] *)
  toLowerCase : string -> string;
  (** whether [v > 0] holds for a string, array or object [v], which the
      comparison first coerces to a number *)
  coerced_gt_zero : value -> bool
}.

Record World : Type := { reads : nat; draws : nat }.

Definition M (A : Type) : Type := World -> completion A * World.

Definition ret {A} (a : A) : M A := fun w => (Normal a, w).
Definition throw {A} (e : exn) : M A := fun w => (Throw e, w).
Definition bind {A B} (m : M A) (k : A -> M B) : M B :=
  fun w =>
    match m w with
    | (Normal a, w') => k a w'
    | (Throw e, w') => (Throw e, w')
    end.

Notation "'let*' x := m 'in' k" := (bind m (fun x => k))
  (at level 10, x pattern, m at level 100, k at level 200).

(** [Date.now()]. *)
Definition Date_now (env : Env) : M Z :=
  fun w => (Normal (clock env (reads w)), {| reads := S (reads w); draws := draws w |}).

(** [new Date().toISOString()]. *)
Definition Date_toISOString (env : Env) : M value :=
  let* t := Date_now env in ret (VStr (iso env t)).

(** [Math.random()], as interpolated into a template literal. *)
Definition Math_random (env : Env) : M string :=
  fun w => (Normal (random env (draws w)), {| reads := reads w; draws := S (draws w) |}).

(** The property read [v.k], which throws on [null] and [undefined]. *)
Definition prop (v : value) (k : string) : M value :=
  if nullish v then throw TypeError else ret (get v k).

(** [x > 0]. *)
Definition gt_zero (env : Env) (v : value) : bool :=
  match v with
  | VNum q => negb (Qle_bool q 0)
  | VUndef | VNull => false
  | VBool b => b
  | _ => coerced_gt_zero env v
  end.

(** [arr.forEach((x, index) => ...)] where the callback pushes onto an
    array [acc]; the call throws when [arr] is not an array, which alone
    has the method. *)
Fixpoint forEach_from {A S : Type} (f : A -> nat -> S -> M S) (l : list A)
    (index : nat) (acc : S) : M S :=
  match l with
  | [] => ret acc
  | x :: l' => let* acc' := f x index acc in forEach_from f l' (Datatypes.S index) acc'
  end.

Definition forEach {S : Type} (f : value -> nat -> S -> M S) (arr : value)
    (acc : S) : M S :=
  match arr with
  | VArr l => forEach_from f l 0 acc
  | _ => throw TypeError
  end.

(** [messages.findIndex(p)], with [None] for [-1]. *)
Fixpoint findIndex {A : Type} (p : A -> bool) (l : list A) : option nat :=
  match l with
  | [] => None
  | x :: l' => if p x then Some 0 else S <$> findIndex p l'
  end.

(** The first step of [handleMessage]: a message with a truthy
    [message_id] and a truthy [is_partial] is merged into the first log
    entry with a strictly equal [message_id] when there is one; every other
    message is pushed. *)
Definition log_update (log : list object) (msg : object) : list object :=
  if truthy (and (msg !!! "message_id") (msg !!! "is_partial")) then
    match findIndex (fun m => strict_eq (m !!! "message_id") (msg !!! "message_id")) log with
    | Some existingIndex => alter (fun m => merge m msg) existingIndex log
    | None => log ++ [msg]
    end
  else log ++ [msg].

(** [projectFiles.filter(file => file.type !== 'script')]. *)
Definition without_scripts (files : list ProjectFile.t) : list ProjectFile.t :=
  List.filter (fun file => negb (is_str (ProjectFile.type file) "script")) files.

(** *** The artifacts a [tool_result] or a [gui_update] produces *)

(** The entry pushed onto [scripts]. *)
Definition script_entry (env : Env) (text : value) : M ScriptContent.t :=
  let* t := Date_now env in
  let* ts := Date_toISOString env in
  ret {| ScriptContent.id := VStr ("script_" +:+ pretty t);
         ScriptContent.content := text;
         ScriptContent.timestamp := ts;
         ScriptContent.tool := VStr "script_writer" |}.

(** The callback of [downloaded_files.forEach]: one project file per
    reported download.  Reading [file.name] is the first read of [file]. *)
Definition downloaded_file (env : Env) (file : value) (index : nat)
    (projectFiles : list ProjectFile.t) : M (list ProjectFile.t) :=
  let* t := Date_now env in
  let* r := Math_random env in
  let* name := prop file "name" in
  let* ts := Date_toISOString env in
  ret (projectFiles ++ [
    {| ProjectFile.id := VStr ("file_" +:+ pretty t +:+ "_" +:+ r);
       ProjectFile.name := or name (VStr "B-roll Media");
       ProjectFile.type := or (get file "type") (VStr "image");
       ProjectFile.path := get file "path";
       ProjectFile.url := get file "url";
       ProjectFile.size := or (get file "size") (VNum 0);
       ProjectFile.timestamp := ts;
       ProjectFile.thumbnail := or (get file "url") (get file "thumbnail");
       ProjectFile.duration := VUndef;
       ProjectFile.source := or (get file "source") (VStr "unknown") |} ]).

(** [filePath.split('/').pop() || filePath.split('\\').pop() || ''] *)
Definition filename_of (filePath : string) : string :=
  let a := Str.pop (Str.split "/" filePath) in
  if negb (String.eqb a "") then a
  else
    let b := Str.pop (Str.split "\" filePath) in
    if negb (String.eqb b "") then b else "".

(** [filePath.includes('Projects') ?
      filePath.split('Projects/')[1]?.split('/')[0] || 'default' : 'default'] *)
Definition projectId_of (filePath : string) : string :=
  if Str.includes "Projects" filePath then
    match Str.split "Projects/" filePath !! 1 with
    | Some rest =>
        let head := default "" (Str.split "/" rest !! 0) in
        if negb (String.eqb head "") then head else "default"
    | None => "default"
    end
  else "default".

Definition imageUrl_of (filePath : string) : string :=
  "http://127.0.0.1:8001/api/projects/" +:+ projectId_of filePath +:+ "/broll/"
    +:+ filename_of filePath.

(** [metadata.file_type?.toLowerCase()]: skipped on [null] and
    [undefined], a method call on a string, a [TypeError] on any other
    value, which has no such method. *)
Definition lowered (env : Env) (v : value) : M value :=
  match v with
  | VUndef | VNull => ret VUndef
  | VStr s => ret (VStr (toLowerCase env s))
  | _ => throw TypeError
  end.

(** The callback of [file_paths.forEach]: one project file per path, with
    a display URL built from the path.  [filePath.split] throws unless
    [filePath] is a string. *)
Definition path_file (env : Env) (result : value) (filePath : value) (index : nat)
    (projectFiles : list ProjectFile.t) : M (list ProjectFile.t) :=
  let metadata := or (at_index (get result "metadata") index) (VObj ∅) in
  match filePath with
  | VStr p =>
      let imageUrl := VStr (imageUrl_of p) in
      let* t := Date_now env in
      let* r := Math_random env in
      let* type := lowered env (get metadata "file_type") in
      let* ts := Date_toISOString env in
      ret (projectFiles ++ [
        {| ProjectFile.id := VStr ("file_" +:+ pretty t +:+ "_" +:+ r);
           ProjectFile.name :=
             or (get metadata "title") (VStr ("B-roll Media " +:+ pretty (S index)));
           ProjectFile.type := or type (VStr "image");
           ProjectFile.path := filePath;
           ProjectFile.url := imageUrl;
           ProjectFile.size := or (get metadata "file_size") (VNum 0);
           ProjectFile.timestamp := ts;
           ProjectFile.thumbnail := imageUrl;
           ProjectFile.duration := VUndef;
           ProjectFile.source :=
             or (at_index (get result "source_types") index) (VStr "unknown") |} ])
  | _ => throw TypeError
  end.

(** The informational message a [broll_finder] result may carry along. *)
Definition helpful_message (env : Env) (text : value) : M object :=
  let* t := Date_now env in
  let* ts := Date_toISOString env in
  ret ({[ "id" := VStr ("msg_" +:+ pretty t);
          "role" := VStr "assistant";
          "content" := text;
          "timestamp" := ts;
          "type" := VStr "informational" ]} : object).

Definition voiceover_file (env : Env) (path : value) : M ProjectFile.t :=
  let* t := Date_now env in
  let* ts := Date_toISOString env in
  ret {| ProjectFile.id := VStr ("voiceover_" +:+ pretty t);
         ProjectFile.name := VStr "Generated Voiceover";
         ProjectFile.type := VStr "voiceover";
         ProjectFile.path := path;
         ProjectFile.url := VUndef;
         ProjectFile.size := VNum 0;
         ProjectFile.timestamp := ts;
         ProjectFile.thumbnail := VUndef;
         ProjectFile.duration := VUndef;
         ProjectFile.source := VUndef |}.

Definition video_file (env : Env) (path thumbnail : value) : M ProjectFile.t :=
  let* t := Date_now env in
  let* ts := Date_toISOString env in
  ret {| ProjectFile.id := VStr ("video_" +:+ pretty t);
         ProjectFile.name := VStr "Final Video";
         ProjectFile.type := VStr "video";
         ProjectFile.path := path;
         ProjectFile.url := VUndef;
         ProjectFile.size := VNum 0;
         ProjectFile.timestamp := ts;
         ProjectFile.thumbnail := thumbnail;
         ProjectFile.duration := VUndef;
         ProjectFile.source := VUndef |}.

Definition video_preview (env : Env) (path thumbnail : value) : M VideoPreview.t :=
  let* t := Date_now env in
  let* ts := Date_toISOString env in
  ret {| VideoPreview.id := VStr ("preview_" +:+ pretty t);
         VideoPreview.path := path;
         VideoPreview.timestamp := ts;
         VideoPreview.status := VStr "ready";
         VideoPreview.thumbnail := thumbnail |}.

(** *** The branches of the reducer *)

(** [case "tool_call"]. *)
Definition on_tool_call (state : RealtimeStore) (msg : object) (log : list object)
    : RealtimeStore :=
  let toolCall :=
    {| ToolCall.tool := or (msg !!! "tool") (VStr "");
       ToolCall.args := or (msg !!! "args") (VObj ∅);
       ToolCall.step := or (msg !!! "step") (VStr "");
       ToolCall.description := or (msg !!! "description") (VStr "") |} in
  with_messages log (with_toolCalls (toolCalls state ++ [toolCall]) state).

(** The body of [if (msg.tool === 'broll_finder' && msg.result)]. *)
Definition broll_finder (env : Env) (result : value)
    (projectFiles : list ProjectFile.t) (log : list object)
    : M (list ProjectFile.t * list object) :=
  let downloaded_files := get result "downloaded_files" in
  let file_paths := get result "file_paths" in
  let* projectFiles :=
    if truthy downloaded_files && gt_zero env (get downloaded_files "length")
    then forEach (downloaded_file env) downloaded_files projectFiles
    else ret projectFiles in
  let* projectFiles :=
    if truthy file_paths && gt_zero env (get file_paths "length")
       && (negb (truthy downloaded_files) || is_zero (get downloaded_files "length"))
    then forEach (path_file env result) file_paths projectFiles
    else ret projectFiles in
  let* log :=
    if truthy (get result "message")
    then let* m := helpful_message env (get result "message") in ret (log ++ [m])
    else ret log in
  ret (projectFiles, log).

(** [case "tool_result"]. *)
Definition on_tool_result (env : Env) (state : RealtimeStore) (msg : object)
    (log : list object) : M RealtimeStore :=
  let toolResult :=
    {| ToolResult.tool := or (msg !!! "tool") (VStr "");
       ToolResult.step := or (msg !!! "step") (VStr "");
       ToolResult.result := or (msg !!! "result") (VObj ∅);
       ToolResult.success := or (msg !!! "success") (VBool false);
       ToolResult.error := msg !!! "error" |} in
  let tool := msg !!! "tool" in
  let result := msg !!! "result" in
  let state' := with_toolResults (toolResults state ++ [toolResult]) state in
  if truthy (and (msg !!! "success") result) then
    let* (scripts, projectFiles) :=
      if is_str tool "script_writer" && truthy (get result "script_text") then
        let* s := script_entry env (get result "script_text") in
        ret (scripts state ++ [s], without_scripts (projectFiles state))
      else ret (scripts state, projectFiles state) in
    let* (projectFiles, log) :=
      if is_str tool "broll_finder" && truthy result
      then broll_finder env result projectFiles log
      else ret (projectFiles, log) in
    let* projectFiles :=
      if is_str tool "voiceover_generator" && truthy (get result "audio_path") then
        let* f := voiceover_file env (get result "audio_path") in
        ret (projectFiles ++ [f])
      else ret projectFiles in
    if is_str tool "video_processor" && truthy (get result "video_path") then
      let* f := video_file env (get result "video_path") (get result "thumbnail") in
      let* p := video_preview env (get result "video_path") (get result "thumbnail") in
      ret (with_videoPreviews (videoPreviews state ++ [p])
             (with_scripts scripts
                (with_projectFiles (projectFiles ++ [f]) (with_messages log state'))))
    else
      ret (with_scripts scripts (with_projectFiles projectFiles (with_messages log state')))
  else
    ret (with_scripts (scripts state)
           (with_projectFiles (projectFiles state) (with_messages log state'))).

(** [case "progress"]. *)
Definition on_progress (state : RealtimeStore) (msg : object) (log : list object)
    : RealtimeStore :=
  with_messages log
    (with_progress
       {| Progress.percent :=
            coalesce (msg !!! "percent") (Progress.percent (progress state));
          Progress.status := or (msg !!! "status") (VStr "");
          Progress.step := or (msg !!! "step") (VStr "") |}
       state).

(** [case "error"]. *)
Definition on_error (state : RealtimeStore) (msg : object) (log : list object)
    : RealtimeStore :=
  with_messages log
    (with_error (or (msg !!! "detail") (or (msg !!! "message") (VStr "Unknown error")))
       state).

(** [case "adaptive"] and [case "context_update"], which have the same
    body. *)
Definition on_preferences (state : RealtimeStore) (msg : object) (log : list object)
    : RealtimeStore :=
  let old := userContext state in
  let userContext :=
    if truthy (msg !!! "preferences") then
      {| UserContext.style := UserContext.style old;
         UserContext.tone := UserContext.tone old;
         UserContext.length := UserContext.length old;
         UserContext.preferences :=
           VObj (merge (spread (UserContext.preferences old))
                       (spread (msg !!! "preferences"))) |}
    else old in
  with_userContext userContext (with_messages log state).

(** [case "gui_update"].  The [console.log] of the script text calls
    [substring] on it, which only a string has. *)
Definition on_gui_update (env : Env) (state : RealtimeStore) (msg : object)
    (log : list object) : M RealtimeStore :=
  let update_type := msg !!! "update_type" in
  let data := msg !!! "data" in
  let* (updatedScripts, updatedProjectFiles) :=
    if is_str update_type "script_created" && truthy (get data "script_content") then
      match get data "script_content" with
      | VStr _ =>
          let* s := script_entry env (get data "script_content") in
          ret (scripts state ++ [s], without_scripts (projectFiles state))
      | _ => throw TypeError
      end
    else ret (scripts state, projectFiles state) in
  let* updatedProjectFiles :=
    if is_str update_type "media_downloaded" && truthy (get data "downloaded_files")
    then forEach (downloaded_file env) (get data "downloaded_files") updatedProjectFiles
    else ret updatedProjectFiles in
  let* updatedProjectFiles :=
    if is_str update_type "voiceover_created" && truthy (get data "voiceover_file") then
      let* f := voiceover_file env (get data "voiceover_file") in
      ret (updatedProjectFiles ++ [f])
    else ret updatedProjectFiles in
  if is_str update_type "video_created" && truthy (get data "final_video") then
    let* f := video_file env (get data "final_video") VUndef in
    let* p := video_preview env (get data "final_video") (get data "thumbnail") in
    ret (with_videoPreviews (videoPreviews state ++ [p])
           (with_projectFiles (updatedProjectFiles ++ [f])
              (with_scripts updatedScripts (with_messages log state))))
  else
    ret (with_projectFiles updatedProjectFiles
           (with_scripts updatedScripts (with_messages log state))).

(** [switch (msg.type)] compares with [===]. *)
Definition one_of (v : value) (cases : list string) : bool := existsb (is_str v) cases.

(** *** [handleMessage]: the updater it hands to [set].  A normal
    completion carries the state [set] installs; when the updater throws,
    [set] installs nothing, the store keeps its state and the exception
    reaches the caller of [handleMessage]. *)
Definition handleMessage (env : Env) (msg : object) (state : RealtimeStore)
    : M RealtimeStore :=
  let log := log_update (messages state) msg in
  let type := msg !!! "type" in
  if is_str type "ai_message" then ret (with_messages log state)
  else if is_str type "thinking" then ret (with_messages log state)
  else if is_str type "reasoning" then ret (with_messages log state)
  else if one_of type ["tool_execution_start"; "tool_execution_complete"; "tool_progress"]
  then ret (with_messages log state)
  else if one_of type ["decision_context"; "decision_option"; "decision_made"]
  then ret (with_messages log state)
  else if is_str type "tool_call" then ret (on_tool_call state msg log)
  else if is_str type "tool_result" then on_tool_result env state msg log
  else if is_str type "progress" then ret (on_progress state msg log)
  else if is_str type "error" then ret (on_error state msg log)
  else if is_str type "connection_established"
  then ret (with_messages log (with_connectionStatus connected state))
  else if is_str type "approval_received" then ret (with_messages log state)
  else if is_str type "workflow_complete" then ret (with_messages log state)
  else if is_str type "informational" then ret (with_messages log state)
  else if is_str type "interactive" then ret (with_messages log state)
  else if is_str type "adaptive" then ret (on_preferences state msg log)
  else if is_str type "context_update" then ret (on_preferences state msg log)
  else if is_str type "gui_update" then on_gui_update env state msg log
  else ret (with_messages log state).

(** The store after a call of [handleMessage], whether or not it threw. *)
Definition dispatch (env : Env) (msg : object) (sw : RealtimeStore * World)
    : RealtimeStore * World :=
  match handleMessage env msg (fst sw) (snd sw) with
  | (Normal state', w') => (state', w')
  | (Throw _, w') => (fst sw, w')
  end.

(** A sequence of calls, in order. *)
Definition dispatch_all (env : Env) (msgs : list object) (sw : RealtimeStore * World)
    : RealtimeStore * World :=
  foldl (fun sw msg => dispatch env msg sw) sw msgs.

(** *** The other actions of the store *)

Definition setConnectionStatus (status : ConnectionStatus) (state : RealtimeStore) :=
  with_connectionStatus status state.
Definition setError (error : value) (state : RealtimeStore) := with_error error state.
Definition clearMessages (state : RealtimeStore) := with_messages [] state.
Definition addScript (script : ScriptContent.t) (state : RealtimeStore) :=
  with_scripts (scripts state ++ [script]) state.
Definition addProjectFile (file : ProjectFile.t) (state : RealtimeStore) :=
  with_projectFiles (projectFiles state ++ [file]) state.
Definition addVideoPreview (preview : VideoPreview.t) (state : RealtimeStore) :=
  with_videoPreviews (videoPreviews state ++ [preview]) state.
Definition selectFile (file : option ProjectFile.t) (state : RealtimeStore) :=
  with_selectedFile file state.
Definition clearScripts (state : RealtimeStore) := with_scripts [] state.
Definition clearScriptFiles (state : RealtimeStore) :=
  with_projectFiles (without_scripts (projectFiles state)) state.

End Store.

(** ** The connection manager ([useWebSocket]) *)

Module Connection.
Import JS Store.

(** [WebSocket.readyState]. *)
Inductive ReadyState : Type :=
  | CONNECTING
  | OPEN
  | CLOSING
  | CLOSED.

Record Socket : Type := { url : string; readyState : ReadyState }.

(** A pending [window.setTimeout(connect, delay)].  The callback is the
    [connect] closure of the render that built the socket, so it carries
    that render's [wsUrl].  Handles are positive, as the browser's are. *)
Record Timeout : Type := { handle : positive; delay : Z; target : string }.

(** A frame as [ws.onmessage] sees it after [JSON.parse]: text that does
    not parse, or the message object of the wire format. *)
Inductive frame : Type :=
  | Malformed
  | Decoded (data : object).

(** One mounted hook together with the browser objects it owns and the
    store it drives.
    - [sessionIdRef], [wsRef], [reconnectRef] and [onMessageRef] are the
      refs ([None] for [null]; [onMessageRef] records whether the optional
      callback is given, and [delivered] what it was called with);
    - [connected] is the React state;
    - [sockets] lists every [WebSocket] constructed so far, a socket being
      identified by its position; [timeouts] holds the pending timeouts and
      [sent] the payloads handed to [ws.send]. *)
Record Hook : Type := mkHook {
  sessionIdRef : string;
  wsRef : option nat;
  reconnectRef : option positive;
  onMessageRef : bool;
  connected : bool;
  sockets : list Socket;
  timeouts : list Timeout;
  next_handle : positive;
  sent : list (nat * value);
  delivered : list object;
  store : RealtimeStore;
  world : World
}.

Definition with_sessionIdRef (v : string) (h : Hook) : Hook :=
  mkHook v (wsRef h) (reconnectRef h) (onMessageRef h) (connected h) (sockets h)
    (timeouts h) (next_handle h) (sent h) (delivered h) (store h) (world h).
Definition with_wsRef (v : option nat) (h : Hook) : Hook :=
  mkHook (sessionIdRef h) v (reconnectRef h) (onMessageRef h) (connected h)
    (sockets h) (timeouts h) (next_handle h) (sent h) (delivered h) (store h)
    (world h).
Definition with_reconnectRef (v : option positive) (h : Hook) : Hook :=
  mkHook (sessionIdRef h) (wsRef h) v (onMessageRef h) (connected h) (sockets h)
    (timeouts h) (next_handle h) (sent h) (delivered h) (store h) (world h).
Definition with_connected (v : bool) (h : Hook) : Hook :=
  mkHook (sessionIdRef h) (wsRef h) (reconnectRef h) (onMessageRef h) v (sockets h)
    (timeouts h) (next_handle h) (sent h) (delivered h) (store h) (world h).
Definition with_sockets (v : list Socket) (h : Hook) : Hook :=
  mkHook (sessionIdRef h) (wsRef h) (reconnectRef h) (onMessageRef h) (connected h)
    v (timeouts h) (next_handle h) (sent h) (delivered h) (store h) (world h).
Definition with_timeouts (v : list Timeout) (n : positive) (h : Hook) : Hook :=
  mkHook (sessionIdRef h) (wsRef h) (reconnectRef h) (onMessageRef h) (connected h)
    (sockets h) v n (sent h) (delivered h) (store h) (world h).
Definition with_sent (v : list (nat * value)) (h : Hook) : Hook :=
  mkHook (sessionIdRef h) (wsRef h) (reconnectRef h) (onMessageRef h) (connected h)
    (sockets h) (timeouts h) (next_handle h) v (delivered h) (store h) (world h).
Definition with_delivered (v : list object) (h : Hook) : Hook :=
  mkHook (sessionIdRef h) (wsRef h) (reconnectRef h) (onMessageRef h) (connected h)
    (sockets h) (timeouts h) (next_handle h) (sent h) v (store h) (world h).
Definition with_store (v : RealtimeStore) (w : World) (h : Hook) : Hook :=
  mkHook (sessionIdRef h) (wsRef h) (reconnectRef h) (onMessageRef h) (connected h)
    (sockets h) (timeouts h) (next_handle h) (sent h) (delivered h) v w.

(** The store actions the hook calls. *)
Definition setStatus (status : ConnectionStatus) (h : Hook) : Hook :=
  with_store (setConnectionStatus status (store h)) (world h) h.
Definition reportError (text : string) (h : Hook) : Hook :=
  with_store (setError (VStr text) (store h)) (world h) h.

(** *** Browser primitives *)

Definition readyState_of (h : Hook) (ws : nat) : option ReadyState :=
  readyState <$> sockets h !! ws.

(** [ws.close()]: a socket that is connecting or open starts closing; one
    that is closing or closed is left alone.  The close event comes later. *)
Definition close_socket (ws : nat) (h : Hook) : Hook :=
  with_sockets
    (alter (fun s =>
              match readyState s with
              | CONNECTING | OPEN => {| url := url s; readyState := CLOSING |}
              | _ => s
              end) ws (sockets h)) h.

(** [new WebSocket(wsUrl)], stored in [wsRef]. *)
Definition open_socket (wsUrl : string) (h : Hook) : Hook :=
  with_wsRef (Some (length (sockets h)))
    (with_sockets (sockets h ++ [{| url := wsUrl; readyState := CONNECTING |}]) h).

(** [reconnectRef.current = window.setTimeout(connect, ms)]. *)
Definition setTimeout (wsUrl : string) (ms : Z) (h : Hook) : Hook :=
  with_reconnectRef (Some (next_handle h))
    (with_timeouts
       (timeouts h ++ [{| handle := next_handle h; delay := ms; target := wsUrl |}])
       (Pos.succ (next_handle h)) h).

(** [window.clearTimeout(id)]. *)
Definition clearTimeout (id : positive) (h : Hook) : Hook :=
  with_timeouts (List.filter (fun t => negb (Pos.eqb (handle t) id)) (timeouts h))
    (next_handle h) h.

(** *** The hook's callbacks *)

(** [url || (sessionId ? `ws://localhost:8001/api/stream/${sessionId}` : "")] *)
Definition wsUrl_of (url : option string) (sessionId : string) : string :=
  match url with
  | Some u =>
      if negb (String.eqb u "") then u
      else if negb (String.eqb sessionId "")
           then "ws://localhost:8001/api/stream/" +:+ sessionId else ""
  | None =>
      if negb (String.eqb sessionId "")
      then "ws://localhost:8001/api/stream/" +:+ sessionId else ""
  end.

(** [connect], as closed over [wsUrl]. *)
Definition connect (wsUrl : string) (h : Hook) : Hook :=
  if String.eqb (sessionIdRef h) "" then h
  else
    match wsRef h with
    | Some ws =>
        match readyState_of h ws with
        | Some OPEN => h
        | _ => open_socket wsUrl (close_socket ws h)
        end
    | None => open_socket wsUrl h
    end.

(** [ws.onopen]. *)
Definition onopen (h : Hook) : Hook :=
  setStatus Store.connected (with_connected true h).

(** [ws.onclose] of the socket built for [wsUrl], for a close event with
    the given code. *)
Definition onclose (wsUrl : string) (code : Z) (h : Hook) : Hook :=
  let h := setStatus disconnected (with_connected false h) in
  if negb (code =? 1000)%Z && negb (String.eqb (sessionIdRef h) "")
  then setTimeout wsUrl 2000 (setStatus reconnecting h)
  else h.

(** [ws.onerror]. *)
Definition onerror (h : Hook) : Hook := reportError "WebSocket error" h.

(** [ws.onmessage]: the [try] block decodes the frame, dispatches it to the
    store and then calls the optional callback; the [catch] block runs when
    [JSON.parse] or the dispatch throws. *)
Definition onmessage (env : Env) (f : frame) (h : Hook) : Hook :=
  match f with
  | Malformed => reportError "Failed to parse WebSocket message" h
  | Decoded data =>
      match handleMessage env data (store h) (world h) with
      | (Normal state', w') =>
          let h := with_store state' w' h in
          if onMessageRef h then with_delivered (delivered h ++ [data]) h else h
      | (Throw _, w') =>
          reportError "Failed to parse WebSocket message" (with_store (store h) w' h)
      end
  end.

(** The teardown both the effect and its cleanup perform: close and drop
    the socket, cancel and drop the pending reconnect. *)
Definition release (h : Hook) : Hook :=
  let h :=
    match wsRef h with
    | Some ws => with_wsRef None (close_socket ws h)
    | None => h
    end in
  match reconnectRef h with
  | Some id => with_reconnectRef None (clearTimeout id h)
  | None => h
  end.

(** The body of [useEffect(..., [sessionId, connect])] for a render with
    the given [sessionId], which the render has already stored in
    [sessionIdRef]. *)
Definition effect (sessionId wsUrl : string) (h : Hook) : Hook :=
  if String.eqb sessionId ""
  then setStatus disconnected (with_connected false (release h))
  else connect wsUrl h.

(** A render with new props: the ref is updated, the cleanup of the
    previous effect runs if that effect returned one (it does so only for a
    non-empty identifier), then the effect runs. *)
Definition rerender (url : option string) (sessionId : string) (h : Hook) : Hook :=
  let previous := sessionIdRef h in
  let h := with_sessionIdRef sessionId h in
  let h := if String.eqb previous "" then h else release h in
  effect sessionId (wsUrl_of url sessionId) h.

(** Unmounting runs the cleanup of the last effect. *)
Definition unmount (h : Hook) : Hook :=
  if String.eqb (sessionIdRef h) "" then h else release h.

(** [sendMessage].  [ws.send] throws on a socket that is still connecting
    and discards the data on one that is closing or closed. *)
Definition sendMessage (msg : value) (h : Hook) : completion Hook :=
  match wsRef h with
  | Some ws =>
      if connected h then
        match readyState_of h ws with
        | Some CONNECTING => Throw InvalidStateError
        | Some OPEN => Normal (with_sent (sent h ++ [(ws, msg)]) h)
        | _ => Normal h
        end
      else Normal h
  | None => Normal h
  end.

(** The hook before its first render. *)
Definition unmounted (onMessage : bool) (state : RealtimeStore) (w : World) : Hook := {|
  sessionIdRef := "";
  wsRef := None;
  reconnectRef := None;
  onMessageRef := onMessage;
  connected := false;
  sockets := [];
  timeouts := [];
  next_handle := 1%positive;
  sent := [];
  delivered := [];
  store := state;
  world := w
|}.

(** *** The hook as a transition system driven by the browser and React *)

Inductive event : Type :=
  | EvOpen (ws : nat)
  | EvClose (ws : nat) (code : Z)
  | EvError (ws : nat)
  | EvMessage (ws : nat) (f : frame)
  | EvTimeout (id : positive)
  | EvRender (url : option string) (sessionId : string)
  | EvUnmount.

Definition set_readyState (ws : nat) (r : ReadyState) (h : Hook) : Hook :=
  with_sockets (alter (fun s => {| url := url s; readyState := r |}) ws (sockets h)) h.

(** One event: the browser updates the socket or the timer list, then the
    callback registered for the event runs.  [None] when the event cannot
    occur in [h]: a socket opens only while connecting, closes once, and
    delivers frames only while open or closing; a timeout fires only while
    pending. *)
Definition step (env : Env) (ev : event) (h : Hook) : option Hook :=
  match ev with
  | EvOpen ws =>
      match sockets h !! ws with
      | Some {| readyState := CONNECTING |} => Some (onopen (set_readyState ws OPEN h))
      | _ => None
      end
  | EvClose ws code =>
      match sockets h !! ws with
      | Some {| readyState := CLOSED |} | None => None
      | Some s => Some (onclose (url s) code (set_readyState ws CLOSED h))
      end
  | EvError ws =>
      match sockets h !! ws with
      | Some {| readyState := CLOSED |} | None => None
      | Some _ => Some (onerror h)
      end
  | EvMessage ws f =>
      match sockets h !! ws with
      | Some {| readyState := OPEN |} | Some {| readyState := CLOSING |} =>
          Some (onmessage env f h)
      | _ => None
      end
  | EvTimeout id =>
      match List.find (fun t => Pos.eqb (handle t) id) (timeouts h) with
      | Some t => Some (connect (target t) (clearTimeout id h))
      | None => None
      end
  | EvRender url sessionId => Some (rerender url sessionId h)
  | EvUnmount => Some (unmount h)
  end.

Fixpoint run (env : Env) (evs : list event) (h : Hook) : option Hook :=
  match evs with
  | [] => Some h
  | ev :: evs' =>
      match step env ev h with
      | Some h' => run env evs' h'
      | None => None
      end
  end.

End Connection.

(** ** The streaming presentation adapter ([useStreamingMessage]) *)

Module Streaming.

(** The fields of the message prop the hook reads, typed as the [Message]
    interface declares them.  The hook only tests the optional fields for
    truthiness, so an absent one is carried as the empty string or as
    [false]. *)
Record Message : Type := {
  type : string;
  content : string;
  message : string;
  detail : string;
  is_partial : bool;
  is_complete : bool
}.

(** [a || b] on strings. *)
Definition or (a b : string) : string := if String.eqb a "" then b else a.

(** [message.content || message.message || message.detail || ''] *)
Definition fullText (m : Message) : string :=
  or (content m) (or (message m) (or (detail m) "")).

(** A live [setInterval] made by [startStreaming]: its handle, the
    [fullText] and the [currentIndex] of the closure, and the period. *)
Record Interval : Type := {
  id : positive;
  text : string;
  currentIndex : nat;
  every : Z
}.

(** The hook's state: the four [useState] cells, the ref, the stream
    intervals alive in the browser, and the number of times [onComplete]
    has been called.  A state update given as a value is taken to apply
    when it is made.  One given as a function is queued: React calls the
    function when it next renders, after the callback that queued it has
    returned.  Text is taken to hold one code unit per character. *)
Record Adapter : Type := mkAdapter {
  displayedText : string;
  isStreaming : bool;
  showCursor : bool;
  isComplete : bool;
  streamIntervalRef : option positive;
  intervals : list Interval;
  next_id : positive;
  completions : nat
}.

Definition initial : Adapter := {|
  displayedText := "";
  isStreaming := false;
  showCursor := false;
  isComplete := false;
  streamIntervalRef := None;
  intervals := [];
  next_id := 1%positive;
  completions := 0
|}.

(** [clearInterval(streamIntervalRef.current); streamIntervalRef.current = null]
    under [if (streamIntervalRef.current)]. *)
Definition clear_ref (a : Adapter) : Adapter :=
  match streamIntervalRef a with
  | Some r =>
      mkAdapter (displayedText a) (isStreaming a) (showCursor a) (isComplete a) None
        (List.filter (fun iv => negb (Pos.eqb (id iv) r)) (intervals a))
        (next_id a) (completions a)
  | None => a
  end.

(** The four setters called together, in the order text, streaming, cursor,
    complete. *)
Definition show (t : string) (streaming cursor complete : bool) (a : Adapter)
    : Adapter :=
  mkAdapter t streaming cursor complete (streamIntervalRef a) (intervals a)
    (next_id a) (completions a).

Definition call_onComplete (a : Adapter) : Adapter :=
  mkAdapter (displayedText a) (isStreaming a) (showCursor a) (isComplete a)
    (streamIntervalRef a) (intervals a) (next_id a) (S (completions a)).

(** [startStreaming], as created by a render that saw message [m], speed
    [streamingSpeed] and the state cell [isStreaming = streaming]. *)
Definition startStreaming (m : Message) (streamingSpeed : Z) (streaming : bool)
    (a : Adapter) : Adapter :=
  if negb (String.eqb (type m) "ai_message") || String.eqb (fullText m) "" || streaming
  then a
  else
    mkAdapter "" true true false (Some (next_id a))
      (intervals a ++
         [{| id := next_id a; text := fullText m; currentIndex := 0;
             every := streamingSpeed |}])
      (Pos.succ (next_id a)) (completions a).

(** [prev + fullText[i]]: past the end the read gives [undefined], which
    the concatenation turns into the text ["undefined"]. *)
Definition plus_char (prev fullText : string) (i : nat) : string :=
  match String.get i fullText with
  | Some c => prev +:+ String c ""
  | None => prev +:+ "undefined"
  end.

(** The interval callback of the interval [iv], and the render that
    follows it.  In the first branch the callback queues the updater
    [prev => prev + fullText[currentIndex]] and then increments
    [currentIndex], a variable the updater shares with it; the render runs
    the updater, which therefore reads the incremented index. *)
Definition reveal (iv : Interval) (a : Adapter) : Adapter :=
  if currentIndex iv <? String.length (text iv) then
    mkAdapter (plus_char (displayedText a) (text iv) (S (currentIndex iv)))
      (isStreaming a) (showCursor a) (isComplete a) (streamIntervalRef a)
      ((fun j =>
          if Pos.eqb (id j) (id iv)
          then {| id := id j; text := text j; currentIndex := S (currentIndex j);
                  every := every j |}
          else j) <$> intervals a)
      (next_id a) (completions a)
  else call_onComplete (show (displayedText a) false false true (clear_ref a)).

(** The browser fires the interval with handle [i], if it is alive. *)
Definition tick (i : positive) (a : Adapter) : Adapter :=
  match List.find (fun iv => Pos.eqb (id iv) i) (intervals a) with
  | Some iv => reveal iv a
  | None => a
  end.

(** [stopStreaming], as created by a render that saw message [m]. *)
Definition stopStreaming (m : Message) (a : Adapter) : Adapter :=
  show (fullText m) false false true (clear_ref a).

(** The message-update effect, as run by a render that saw message [m] and
    the state [a]. *)
Definition message_effect (m : Message) (streamingSpeed : Z) (a : Adapter) : Adapter :=
  if String.eqb (type m) "ai_message" && negb (String.eqb (fullText m) "") then
    if is_partial m then show (fullText m) true true false a
    else if is_complete m then call_onComplete (show (fullText m) false false true a)
    else if negb (isStreaming a) && negb (isComplete a)
         then startStreaming m streamingSpeed (isStreaming a) a
         else a
  else if negb (String.eqb (type m) "ai_message")
       then show (fullText m) false false true a
       else a.

(** With the props unchanged, the state cells among the effect's
    dependencies are [isStreaming] and [isComplete]. *)
Definition deps_changed (a b : Adapter) : bool :=
  negb (Bool.eqb (isStreaming a) (isStreaming b))
  || negb (Bool.eqb (isComplete a) (isComplete b)).

(** React runs the effect again after each render in which a dependency
    changed.  [before] is the state the effect last saw; a second run
    leaves the dependencies as they are (see [message_effect_settled]). *)
Definition settle (m : Message) (streamingSpeed : Z) (before a : Adapter) : Adapter :=
  if deps_changed before a then
    let a1 := message_effect m streamingSpeed a in
    if deps_changed a a1 then message_effect m streamingSpeed a1 else a1
  else a.

(** The first render and the effects after it. *)
Definition mount (m : Message) (streamingSpeed : Z) : Adapter :=
  let a1 := message_effect m streamingSpeed initial in
  if deps_changed initial a1 then message_effect m streamingSpeed a1 else a1.

(** The interval [i] fires, then React renders. *)
Definition fire (m : Message) (streamingSpeed : Z) (i : positive) (a : Adapter)
    : Adapter :=
  settle m streamingSpeed a (tick i a).

(** The user skips the animation ([stopStreaming] as click handler), then
    React renders. *)
Definition skip (m : Message) (streamingSpeed : Z) (a : Adapter) : Adapter :=
  settle m streamingSpeed a (stopStreaming m a).

(** The cursor interval, alive while [showCursor] holds, toggles the
    cursor; its effect depends on [showCursor] alone. *)
Definition blink (a : Adapter) : Adapter :=
  if showCursor a
  then show (displayedText a) (isStreaming a) false (isComplete a) a
  else a.

(** The parent passes another message: the effect runs for it. *)
Definition replace (m : Message) (streamingSpeed : Z) (a : Adapter) : Adapter :=
  settle m streamingSpeed a (message_effect m streamingSpeed a).

(** [n] firings of the interval [i] in a row. *)
Fixpoint fires (m : Message) (streamingSpeed : Z) (i : positive) (n : nat)
    (a : Adapter) : Adapter :=
  match n with
  | O => a
  | S n' => fires m streamingSpeed i n' (fire m streamingSpeed i a)
  end.

End Streaming.

(** ** The script panel ([ScriptTab]): its store selectors *)

Module ScriptTab.
Import JS Store.

(** The predicate of [find]:
    [msg.tool === "script_writer" && msg.result?.script_text]. *)
Definition has_script (msg : ToolResult.t) : bool :=
  is_str (ToolResult.tool msg) "script_writer"
  && truthy (get (ToolResult.result msg) "script_text").

(** [[...s.toolResults].reverse().find(...)] *)
Definition scriptResult (s : RealtimeStore) : option ToolResult.t :=
  List.find has_script (rev (toolResults s)).

(** [text.substring(0, 100)] as evaluated for the [console.log] before the
    [return]: only a string has the method.  The selector then returns
    [text]. *)
Definition logged (text : value) : completion value :=
  match text with
  | VStr _ => Normal text
  | _ => Throw TypeError
  end.

(** The selector of the current script: the latest tool result that holds
    one, else the last entry of [scripts], else the empty string. *)
Definition script (s : RealtimeStore) : completion value :=
  let text :=
    match scriptResult s with
    | Some r => get (ToolResult.result r) "script_text"
    | None => VUndef
    end in
  if truthy text then logged text
  else
    match last (scripts s) with
    | Some latestScript => logged (ScriptContent.content latestScript)
    | None => Normal (VStr "")
    end.

(** [s.toolCalls.some(call => call.tool === "script_writer")] *)
Definition isGenerating (s : RealtimeStore) : bool :=
  existsb (fun call => is_str (ToolCall.tool call) "script_writer") (toolCalls s).

End ScriptTab.

(** ** Sample data used to exercise the statements below *)

Module Samples.
Import JS Store.

(** A run-time environment: a clock that advances one millisecond per
    read, a fixed rendering of dates and of random draws, ASCII-blind
    lower-casing, and no exotic coercion greater than zero. *)
Definition env : Env := {|
  clock := fun k => (1700000000000 + Z.of_nat k)%Z;
  iso := fun _ => "2023-11-14T22:13:20.000Z";
  random := fun _ => "0.5";
  toLowerCase := fun s => s;
  coerced_gt_zero := fun _ => false
|}.

Definition w0 : World := {| reads := 0; draws := 0 |}.

(** Log entries and messages for the append-or-replace step. *)
Definition first_entry : object :=
  {[ "type" := VStr "ai_message"; "message_id" := VStr "m1"; "content" := VStr "one" ]}.
Definition second_entry : object :=
  {[ "type" := VStr "ai_message"; "message_id" := VStr "m1"; "content" := VStr "two" ]}.
Definition partial_m1 : object :=
  {[ "type" := VStr "ai_message"; "message_id" := VStr "m1";
     "is_partial" := VBool true; "content" := VStr "Hello" ]}.

(** The two progress events of the specification's example. *)
Definition progress_10 : object :=
  {[ "type" := VStr "progress"; "percent" := VNum 10; "status" := VStr "start";
     "step" := VStr "script" ]}.
Definition progress_40 : object :=
  {[ "type" := VStr "progress"; "percent" := VNum 40 ]}.

(** Handshake and error messages. *)
Definition established : object := {[ "type" := VStr "connection_established" ]}.
Definition boom : object := {[ "type" := VStr "error"; "detail" := VStr "boom" ]}.
Definition partial_boom : object :=
  {[ "type" := VStr "error"; "detail" := VStr "boom"; "message_id" := VStr "m1";
     "is_partial" := VBool true ]}.

(** Script-producing messages and a script-typed project file. *)
Definition script_result : object :=
  {[ "type" := VStr "tool_result"; "tool" := VStr "script_writer";
     "success" := VBool true;
     "result" := VObj {[ "script_text" := VStr "INT. STUDIO" ]} ]}.
Definition script_call : object :=
  {[ "type" := VStr "tool_call"; "tool" := VStr "script_writer";
     "step" := VStr "script" ]}.
Definition script_revised : object :=
  {[ "type" := VStr "gui_update"; "update_type" := VStr "script_created";
     "data" := VObj {[ "script_content" := VStr "EXT. STREET" ]} ]}.
Definition script_file : ProjectFile.t :=
  {| ProjectFile.id := VStr "f1"; ProjectFile.name := VStr "draft.txt";
     ProjectFile.type := VStr "script"; ProjectFile.path := VStr "/p/draft.txt";
     ProjectFile.url := VUndef; ProjectFile.size := VNum 12;
     ProjectFile.timestamp := VStr "2023-11-14T22:13:20.000Z";
     ProjectFile.thumbnail := VUndef; ProjectFile.duration := VUndef;
     ProjectFile.source := VUndef |}.
Definition seeded : RealtimeStore := addProjectFile script_file initial.

(** A [broll_finder] result with a note for the user. *)
Definition partial_broll_note : object :=
  {[ "type" := VStr "tool_result"; "tool" := VStr "broll_finder";
     "success" := VBool true; "message_id" := VStr "m1"; "is_partial" := VBool true;
     "result" := VObj {[ "message" := VStr "Found 3 clips" ]} ]}.
Definition broll_note : object :=
  {[ "type" := VStr "tool_result"; "tool" := VStr "broll_finder";
     "success" := VBool true;
     "result" := VObj {[ "message" := VStr "Found 3 clips" ]} ]}.

(** Preference updates, and a GUI update whose script text is a number. *)
Definition casual : object :=
  {[ "type" := VStr "adaptive"; "preferences" := VObj {[ "tone" := VStr "casual" ]} ]}.
Definition brisk : object :=
  {[ "type" := VStr "context_update";
     "preferences" := VObj {[ "pace" := VStr "fast" ]} ]}.
Definition bad_update : object :=
  {[ "type" := VStr "gui_update"; "update_type" := VStr "script_created";
     "data" := VObj {[ "script_content" := VNum 5 ]} ]}.

(** A hook mounted for session [s1], before and after its socket opens,
    and after that socket closes abnormally (code 1006). *)
Definition mounted : Connection.Hook :=
  Connection.rerender None "s1" (Connection.unmounted false initial w0).
Definition opened : Connection.Hook :=
  default mounted (Connection.step env (Connection.EvOpen 0) mounted).
Definition dropped : Connection.Hook :=
  default opened (Connection.step env (Connection.EvClose 0 1006) opened).
Definition reconnecting_again : Connection.Hook :=
  default dropped (Connection.step env (Connection.EvTimeout 1) dropped).

(** The caller switches from session [s1] to [s2] while the socket of [s1]
    is open; the close event of that socket is still to come. *)
Definition switched : Connection.Hook :=
  Connection.rerender None "s2" opened.

(** After the switch both sockets close abnormally, the one of [s1] first:
    each close schedules a reconnect, and the second overwrites the handle
    of the first in [reconnectRef]. *)
Definition both_dropped : Connection.Hook :=
  let h := default switched (Connection.step env (Connection.EvClose 0 1005) switched) in
  default h (Connection.step env (Connection.EvClose 1 1006) h).

(** Messages for the presentation adapter. *)
Definition hello : Streaming.Message :=
  {| Streaming.type := "ai_message"; Streaming.content := "Hello";
     Streaming.message := ""; Streaming.detail := "";
     Streaming.is_partial := false; Streaming.is_complete := false |}.
Definition empty_ai : Streaming.Message :=
  {| Streaming.type := "ai_message"; Streaming.content := "";
     Streaming.message := ""; Streaming.detail := "";
     Streaming.is_partial := false; Streaming.is_complete := false |}.
Definition typing : Streaming.Message :=
  {| Streaming.type := "ai_message"; Streaming.content := "Hel";
     Streaming.message := ""; Streaming.detail := "";
     Streaming.is_partial := true; Streaming.is_complete := false |}.
Definition final : Streaming.Message :=
  {| Streaming.type := "ai_message"; Streaming.content := "Hello";
     Streaming.message := ""; Streaming.detail := "";
     Streaming.is_partial := false; Streaming.is_complete := true |}.
Definition info : Streaming.Message :=
  {| Streaming.type := "informational"; Streaming.content := "Ready";
     Streaming.message := ""; Streaming.detail := "";
     Streaming.is_partial := false; Streaming.is_complete := false |}.

(** The [broll_finder] result of the specification's scenario A, and one
    that reports bare paths. *)
Definition broll_download : object :=
  {[ "type" := VStr "tool_result"; "tool" := VStr "broll_finder";
     "step" := VStr "broll"; "success" := VBool true;
     "result" :=
       VObj {[ "downloaded_files" :=
                 VArr [VObj {[ "name" := VStr "a.jpg"; "type" := VStr "image";
                               "path" := VStr "/x/a.jpg";
                               "url" := VStr "http://h/a.jpg";
                               "size" := VNum 100 ]}] ]} ]}.

End Samples.

(** ** Notions used in the statements *)

Import JS Store.

(** A message that asks to update a log entry: truthy [message_id] and
    truthy [is_partial]. *)
Definition partial_update (msg : object) : bool :=
  truthy (msg !!! "message_id") && truthy (msg !!! "is_partial").

(** The log entry [m] has the [message_id] of [msg]. *)
Definition same_id (msg m : object) : bool :=
  strict_eq (m !!! "message_id") (msg !!! "message_id").

(** A [tool_result] of [broll_finder] that carries a note for the user. *)
Definition carries_note (msg : object) : bool :=
  truthy (and (msg !!! "success") (msg !!! "result"))
  && is_str (msg !!! "tool") "broll_finder"
  && truthy (get (msg !!! "result") "message").

(** File lists of a [broll_finder] payload that the reducer can walk:
    [downloaded_files] is missing or an array without [null] entries;
    [file_paths] is missing or an array of strings, any [file_type] given
    for them in [metadata] being a string. *)
Definition files_ok (files : value) : bool :=
  match files with
  | VUndef | VNull => true
  | VArr l => forallb (fun file => negb (nullish file)) l
  | _ => false
  end.

Definition file_type_ok (metadata : value) (index : nat) : bool :=
  match get (or (at_index metadata index) (VObj ∅)) "file_type" with
  | VUndef | VNull | VStr _ => true
  | _ => false
  end.

Definition path_ok (filePath : value) : bool :=
  match filePath with
  | VStr _ => true
  | _ => false
  end.

Definition paths_ok (result : value) : bool :=
  match get result "file_paths" with
  | VUndef | VNull => true
  | VArr l =>
      forallb path_ok l
      && forallb (file_type_ok (get result "metadata")) (seq 0 (length l))
  | _ => false
  end.

Definition broll_ok (result : value) : bool :=
  files_ok (get result "downloaded_files") && paths_ok result.

(** A socket that is connecting or open. *)
Definition live (s : Connection.Socket) : bool :=
  match Connection.readyState s with
  | Connection.CONNECTING | Connection.OPEN => true
  | _ => false
  end.

(** Only the socket held in [wsRef] may be live. *)
Definition single_live (h : Connection.Hook) : Prop :=
  forall i s, Connection.sockets h !! i = Some s -> live s = true ->
              Connection.wsRef h = Some i.

(** What the adapter displays after [k] firings of the reveal timer on a
    text of [N] characters, for [k <= N]: the [k] characters that follow
    the first one while [k < N], and after the [N]-th firing the text
    without its first character, followed by ["undefined"]. *)
Definition shown (fullText : string) (k : nat) : string :=
  if k <? String.length fullText
  then String.substring 1 k fullText
  else String.substring 1 (String.length fullText - 1) fullText +:+ "undefined".

(** The adapter while it reveals the text of [m], after [k] firings, in a
    run started by the first render; and the adapter once that run has
    finished. *)
Definition revealing (m : Streaming.Message) (speed : Z) (k : nat)
    : Streaming.Adapter := {|
  Streaming.displayedText := shown (Streaming.fullText m) k;
  Streaming.isStreaming := true;
  Streaming.showCursor := true;
  Streaming.isComplete := false;
  Streaming.streamIntervalRef := Some 1%positive;
  Streaming.intervals :=
    [{| Streaming.id := 1%positive; Streaming.text := Streaming.fullText m;
        Streaming.currentIndex := k; Streaming.every := speed |}];
  Streaming.next_id := 2%positive;
  Streaming.completions := 0
|}.

Definition finished (m : Streaming.Message) : Streaming.Adapter := {|
  Streaming.displayedText :=
    shown (Streaming.fullText m) (String.length (Streaming.fullText m));
  Streaming.isStreaming := false;
  Streaming.showCursor := false;
  Streaming.isComplete := true;
  Streaming.streamIntervalRef := None;
  Streaming.intervals := [];
  Streaming.next_id := 2%positive;
  Streaming.completions := 1
|}.

(** The entries a [tool_call] and a [tool_result] message leave in
    [toolCalls] and [toolResults]: missing fields are defaulted. *)
Definition toolCall_of (msg : object) : ToolCall.t :=
  {| ToolCall.tool := or (msg !!! "tool") (VStr "");
     ToolCall.args := or (msg !!! "args") (VObj ∅);
     ToolCall.step := or (msg !!! "step") (VStr "");
     ToolCall.description := or (msg !!! "description") (VStr "") |}.

Definition toolResult_of (msg : object) : ToolResult.t :=
  {| ToolResult.tool := or (msg !!! "tool") (VStr "");
     ToolResult.step := or (msg !!! "step") (VStr "");
     ToolResult.result := or (msg !!! "result") (VObj ∅);
     ToolResult.success := or (msg !!! "success") (VBool false);
     ToolResult.error := msg !!! "error" |}.

(** The project file made for a downloaded file: fields are copied, with
    defaults for the missing ones, and the URL doubles as thumbnail. *)
Definition downloaded_as (file : value) (f : ProjectFile.t) : Prop :=
  ProjectFile.name f = or (get file "name") (VStr "B-roll Media")
  /\ ProjectFile.type f = or (get file "type") (VStr "image")
  /\ ProjectFile.path f = get file "path"
  /\ ProjectFile.url f = get file "url"
  /\ ProjectFile.size f = or (get file "size") (VNum 0)
  /\ ProjectFile.thumbnail f = or (get file "url") (get file "thumbnail")
  /\ ProjectFile.source f = or (get file "source") (VStr "unknown").


(** The string [s] has no code unit [c]. *)
Definition lacks (c : ascii) (s : string) : Prop :=
  forall k, String.get k s <> Some c.

Definition slash : ascii := "/"%char.
Definition capital_P : ascii := "P"%char.

(** [s] without its first [n] code units. *)
Fixpoint drop_units (n : nat) (s : string) : string :=
  match n, s with
  | O, _ => s
  | S k, String _ s' => drop_units k s'
  | S _, EmptyString => ""
  end.

(** No socket of the hook is live. *)
Definition quiet (h : Connection.Hook) : Prop :=
  forall i s, Connection.sockets h !! i = Some s -> live s = false.




(** A computation that completes normally from every world. *)
Definition completes {A} (m : M A) : Prop :=
  forall w, exists a w', m w = (Normal a, w').

(** Two clock reads. *)
Definition two_reads (w : World) : World :=
  {| reads := S (S (reads w)); draws := draws w |}.

(** * Properties *)

(** ** The monad and the JavaScript operators *)

Lemma bind_run {A B} (m : M A) (k : A -> M B) w a w1 :
  m w = (Normal a, w1) -> bind m k w = k a w1.
Proof. intros H. unfold bind. by rewrite H. Qed.

Lemma bind_throw {A B} (m : M A) (k : A -> M B) w e w1 :
  m w = (Throw e, w1) -> bind m k w = (Throw e, w1).
Proof. intros H. unfold bind. by rewrite H. Qed.

Lemma bind_Normal {A B} (m : M A) (k : A -> M B) w b w' :
  bind m k w = (Normal b, w') ->
  exists a w1, m w = (Normal a, w1) /\ k a w1 = (Normal b, w').
Proof. unfold bind. destruct (m w) as [[a|e] w1]; [eauto | discriminate]. Qed.

Lemma and_truthy a b : truthy (and a b) = truthy a && truthy b.
Proof. unfold and. destruct (truthy a) eqn:E; simpl; [done | by rewrite E]. Qed.

Lemma or_truthy a b : truthy (or a b) = truthy a || truthy b.
Proof. unfold or. destruct (truthy a) eqn:E; simpl; [by rewrite E | done]. Qed.

Lemma is_str_true v s : is_str v s = true <-> v = VStr s.
Proof.
  unfold is_str. destruct v; simpl; try (split; [discriminate|congruence]).
  split; [intros H%String.eqb_eq; congruence | intros [= ->]; apply String.eqb_refl].
Qed.

Lemma is_str_false v s : is_str v s = false <-> v <> VStr s.
Proof.
  rewrite <- is_str_true. destruct (is_str v s); split; congruence.
Qed.

Lemma truthy_str s : truthy (VStr s) = true <-> s <> "".
Proof.
  simpl. destruct (String.eqb_spec s ""); simpl; split; congruence.
Qed.

(** The shallow merge [{...m, ...msg}] reads every field from [msg] when
    [msg] has it and from [m] otherwise. *)
Lemma merge_lookup (m msg : object) (k : string) :
  merge m msg !! k = match msg !! k with Some v => Some v | None => m !! k end.
Proof.
  unfold merge. destruct (msg !! k) as [v|] eqn:E.
  - by apply lookup_union_Some_l.
  - by rewrite lookup_union_r.
Qed.

(** ** [findIndex] *)

Lemma findIndex_Some {A} (p : A -> bool) (l : list A) (i : nat) :
  findIndex p l = Some i <->
  exists x, l !! i = Some x /\ p x = true /\
            forall j y, j < i -> l !! j = Some y -> p y = false.
Proof.
  revert i. induction l as [|a l IH]; intros i; simpl.
  - split; [discriminate | intros (x & Hx & _); discriminate].
  - destruct (p a) eqn:Hpa.
    + split.
      * intros [= <-]. exists a. split; [done|]. split; [done|]. intros j y Hj. lia.
      * intros (x & Hx & Hp & Hlt). destruct i as [|i]; [done|].
        specialize (Hlt 0 a ltac:(lia) eq_refl). congruence.
    + split.
      * destruct (findIndex p l) as [k|] eqn:Hk; simpl; [|discriminate].
        intros [= <-]. destruct (proj1 (IH k) eq_refl) as (x & Hx & Hp & Hlt).
        exists x. split; [done|]. split; [done|].
        intros [|j] y Hj; simpl; [congruence|]. apply Hlt. lia.
      * intros (x & Hx & Hp & Hlt). destruct i as [|i]; simpl in Hx; [congruence|].
        rewrite (proj2 (IH i)); [done|].
        exists x. split; [done|]. split; [done|].
        intros j y Hj Hy. apply (Hlt (S j) y); [lia | done].
Qed.

Lemma findIndex_None {A} (p : A -> bool) (l : list A) :
  findIndex p l = None <-> forall x, x ∈ l -> p x = false.
Proof.
  induction l as [|a l IH]; simpl.
  - split; [intros _ x Hx; by apply elem_of_nil in Hx | done].
  - destruct (p a) eqn:Hpa.
    + split; [discriminate|]. intros H. specialize (H a ltac:(left)). congruence.
    + destruct (findIndex p l) as [k|] eqn:Hk; simpl.
      * split; [discriminate|]. intros H.
        assert (Some k = None) by (apply IH; intros x Hx; apply H; by right). done.
      * split; [|done]. intros _ x Hx. apply elem_of_cons in Hx as [->|Hx]; [done|].
        by apply IH.
Qed.

(** ** The append-or-replace step *)

Lemma alter_as_insert {A} (f : A -> A) (l : list A) (i : nat) (x : A) :
  l !! i = Some x -> alter f i l = <[i := f x]> l.
Proof.
  revert i. induction l as [|a l IH]; intros [|i] H; simpl in *; try done.
  - by injection H as ->.
  - f_equal. by apply IH.
Qed.

(** [log_update] replaces the first entry with the message's identifier
    when the message is a partial update and such an entry exists, and
    appends the message in every other case. *)
Lemma log_update_cases (log : list object) (msg : object) :
  (partial_update msg = true /\
   exists i m, log !! i = Some m /\ same_id msg m = true /\
     (forall j m', j < i -> log !! j = Some m' -> same_id msg m' = false) /\
     log_update log msg = <[i := merge m msg]> log)
  \/ ((partial_update msg = false \/ forall m, m ∈ log -> same_id msg m = false) /\
      log_update log msg = log ++ [msg]).
Proof.
  unfold log_update, partial_update. rewrite and_truthy.
  destruct (truthy (msg !!! "message_id") && truthy (msg !!! "is_partial")) eqn:Hp;
    [| right; split; [by left | done]].
  destruct (findIndex _ log) as [i|] eqn:Hi.
  - left. split; [done|]. apply findIndex_Some in Hi as (m & Hm & Hsame & Hfirst).
    exists i, m. split; [done|]. split; [done|]. split; [done|].
    by apply (alter_as_insert (fun m => merge m msg)).
  - right. split; [|done]. right. by apply findIndex_None.
Qed.

Lemma log_update_append (log : list object) (msg : object) :
  partial_update msg = false -> log_update log msg = log ++ [msg].
Proof.
  unfold log_update, partial_update. rewrite and_truthy. by intros ->.
Qed.

(** The log never shrinks, and grows by at most one entry. *)
Lemma log_update_length (log : list object) (msg : object) :
  length log <= length (log_update log msg) <= S (length log).
Proof.
  destruct (log_update_cases log msg) as [(_ & i & m & _ & _ & _ & ->) | (_ & ->)].
  - rewrite length_insert. lia.
  - rewrite length_app. simpl. lia.
Qed.

(** ** The branches of [handleMessage] *)

Lemma handleMessage_cases env msg state :
  let log := log_update (messages state) msg in
  let type := msg !!! "type" in
  handleMessage env msg state =
    if is_str type "tool_call" then ret (on_tool_call state msg log)
    else if is_str type "tool_result" then on_tool_result env state msg log
    else if is_str type "progress" then ret (on_progress state msg log)
    else if is_str type "error" then ret (on_error state msg log)
    else if is_str type "connection_established"
      then ret (with_messages log (with_connectionStatus connected state))
    else if is_str type "adaptive" then ret (on_preferences state msg log)
    else if is_str type "context_update" then ret (on_preferences state msg log)
    else if is_str type "gui_update" then on_gui_update env state msg log
    else ret (with_messages log state).
Proof.
  intros log type. unfold handleMessage. fold log. fold type.
  destruct type as [| |b|q|s|l|o]; try reflexivity.
  unfold one_of, existsb, is_str, strict_eq.
  repeat (match goal with
          | |- context [String.eqb s ?x] =>
              destruct (String.eqb_spec s x); [subst; reflexivity|]
          end).
  reflexivity.
Qed.

Lemma script_entry_run env text w :
  exists s, script_entry env text w = (Normal s, two_reads w)
    /\ ScriptContent.content s = text /\ ScriptContent.tool s = VStr "script_writer".
Proof. eexists. split; [reflexivity|]. split; reflexivity. Qed.

Lemma helpful_message_run env text w :
  exists note : object, helpful_message env text w = (Normal note, two_reads w)
    /\ note !!! "content" = text /\ note !!! "type" = VStr "informational"
    /\ note !!! "role" = VStr "assistant".
Proof. eexists. split; [reflexivity|]. split; [|split]; reflexivity. Qed.

Lemma voiceover_file_run env path w :
  exists f, voiceover_file env path w = (Normal f, two_reads w)
    /\ ProjectFile.type f = VStr "voiceover" /\ ProjectFile.path f = path.
Proof. eexists. split; [reflexivity|]. split; reflexivity. Qed.

Lemma video_file_run env path thumbnail w :
  exists f, video_file env path thumbnail w = (Normal f, two_reads w)
    /\ ProjectFile.type f = VStr "video" /\ ProjectFile.path f = path.
Proof. eexists. split; [reflexivity|]. split; reflexivity. Qed.

Lemma video_preview_run env path thumbnail w :
  exists p, video_preview env path thumbnail w = (Normal p, two_reads w)
    /\ VideoPreview.status p = VStr "ready" /\ VideoPreview.path p = path.
Proof. eexists. split; [reflexivity|]. split; reflexivity. Qed.

(** ** What a call does to the message log *)

Lemma broll_finder_log env result pf log w pf' log' w' :
  broll_finder env result pf log w = (Normal (pf', log'), w') ->
  if truthy (get result "message")
  then exists note : object, log' = log ++ [note]
        /\ note !!! "content" = get result "message"
        /\ note !!! "type" = VStr "informational"
        /\ exists w1, helpful_message env (get result "message") w1
                      = (Normal note, two_reads w1)
  else log' = log.
Proof.
  unfold broll_finder. intros H.
  apply bind_Normal in H as (pf1 & w1 & _ & H).
  apply bind_Normal in H as (pf2 & w2 & _ & H).
  apply bind_Normal in H as (log1 & w3 & Hlog & H).
  injection H as <- <- <-.
  destruct (truthy (get result "message")).
  - apply bind_Normal in Hlog as (note & w4 & Hn & Hr).
    destruct (helpful_message_run env (get result "message") w2) as (n & Hn' & ? & ? & ?).
    rewrite Hn' in Hn. injection Hn as <- <-. injection Hr as <- <-.
    exists n. repeat (split; [done|]). by exists w2.
  - by injection Hlog as <- <-.
Qed.

Lemma on_tool_result_log env state msg log w state' w' :
  on_tool_result env state msg log w = (Normal state', w') ->
  if carries_note msg
  then exists note : object, messages state' = log ++ [note]
        /\ note !!! "content" = get (msg !!! "result") "message"
        /\ note !!! "type" = VStr "informational"
        /\ exists w1, helpful_message env (get (msg !!! "result") "message") w1
                      = (Normal note, two_reads w1)
  else messages state' = log.
Proof.
  unfold on_tool_result, carries_note. intros H.
  destruct (truthy (and (msg !!! "success") (msg !!! "result"))) eqn:Hs; simpl;
    [| by injection H as <- <-].
  apply bind_Normal in H as ([scripts1 pf1] & w1 & _ & H).
  apply bind_Normal in H as ([pf2 log2] & w2 & Hb & H).
  apply bind_Normal in H as (pf3 & w3 & _ & H).
  assert (Hm : messages state' = log2).
  { destruct (is_str (msg !!! "tool") "video_processor" && _).
    - apply bind_Normal in H as (f & w4 & _ & H).
      apply bind_Normal in H as (p & w5 & _ & H). by injection H as <- <-.
    - by injection H as <- <-. }
  rewrite Hm. clear H Hm.
  rewrite and_truthy in Hs. apply andb_prop in Hs as [_ Hr].
  destruct (is_str (msg !!! "tool") "broll_finder") eqn:Ht; simpl.
  - rewrite Hr in Hb. simpl in Hb. by apply broll_finder_log in Hb.
  - by injection Hb as <- <-.
Qed.

Lemma on_gui_update_log env state msg log w state' w' :
  on_gui_update env state msg log w = (Normal state', w') -> messages state' = log.
Proof.
  unfold on_gui_update. intros H.
  apply bind_Normal in H as ([s1 pf1] & w1 & _ & H).
  apply bind_Normal in H as (pf2 & w2 & _ & H).
  apply bind_Normal in H as (pf3 & w3 & _ & H).
  destruct (is_str (msg !!! "update_type") "video_created" && _).
  - apply bind_Normal in H as (f & w4 & _ & H).
    apply bind_Normal in H as (p & w5 & _ & H). by injection H as <- <-.
  - by injection H as <- <-.
Qed.

(** After a call that completes, the log is the result of the
    append-or-replace step, followed by the note of a [broll_finder]
    result when there is one. *)
Lemma handleMessage_log env msg state w state' w' :
  handleMessage env msg state w = (Normal state', w') ->
  if is_str (msg !!! "type") "tool_result" && carries_note msg
  then exists note : object,
        messages state' = log_update (messages state) msg ++ [note]
        /\ note !!! "content" = get (msg !!! "result") "message"
        /\ note !!! "type" = VStr "informational"
        /\ exists w1, helpful_message env (get (msg !!! "result") "message") w1
                      = (Normal note, two_reads w1)
  else messages state' = log_update (messages state) msg.
Proof.
  rewrite handleMessage_cases. cbv zeta.
  destruct (msg !!! "type") as [| |b|q|s|l|o];
    try (simpl; intros H; by injection H as <- <-).
  unfold is_str, strict_eq.
  repeat (match goal with
          | |- context [String.eqb s ?x] =>
              destruct (String.eqb_spec s x);
              [subst; try (simpl; intros H; by injection H as <- <-)|]
          end);
    try (simpl; intros H; by injection H as <- <-).
  - simpl. apply on_tool_result_log.
  - simpl. apply on_gui_update_log.
Qed.

(** Every message that is neither a [tool_result] nor a [gui_update] is
    handled without throwing, and without reading the clock. *)
Lemma handleMessage_completes env msg state w :
  msg !!! "type" <> VStr "tool_result" ->
  msg !!! "type" <> VStr "gui_update" ->
  exists state', handleMessage env msg state w = (Normal state', w).
Proof.
  intros H1%is_str_false H2%is_str_false.
  rewrite handleMessage_cases. cbv zeta. rewrite H1, H2.
  repeat (match goal with
          | |- context [if ?b then _ else _] => destruct b; [by eexists|]
          end).
  by eexists.
Qed.

(** ** C1: append or replace *)

(** C1, counterexample.  The claim has a partial update replace the most
    recent log entry with its [message_id].  Starting from the initial
    store, two messages with identifier [m1] are logged and a partial
    update for [m1] follows: it is merged into the first of the two entries
    and the most recent one stays as it was. *)
Lemma C1_counterexample :
  let log :=
    messages (fst (dispatch_all Samples.env
                     [Samples.first_entry; Samples.second_entry; Samples.partial_m1]
                     (initial, Samples.w0))) in
  log = [merge Samples.first_entry Samples.partial_m1; Samples.second_entry]
  /\ log <> [Samples.first_entry; merge Samples.second_entry Samples.partial_m1].
Proof.
  cbv zeta. split; [by vm_compute|].
  intros H.
  apply (f_equal (fun l : list object => (l !! 0) ≫= (.!! "content"))) in H.
  vm_compute in H. discriminate.
Qed.

(** C1, as amended.  A call of [handleMessage] either throws, which only a
    [tool_result] or a [gui_update] can do, or it updates the log in one of
    two ways.  A message with a truthy [message_id] and a truthy
    [is_partial] whose [message_id] strictly equals that of some log entry
    replaces the first such entry, at its position, by the shallow merge of
    the entry and the message: each field is read from the message when it
    has the field and from the old entry otherwise.  Any other message is
    appended after the existing entries.  Nothing else enters the log,
    except that a successful [broll_finder] result whose payload has a
    truthy [message] is followed by exactly one note: the informational
    message that [helpful_message] builds from that text. *)
Theorem C1_partial_update_replaces_first_match env msg state w :
  match handleMessage env msg state w with
  | (Normal state', _) =>
      exists notes : list object,
        (if is_str (msg !!! "type") "tool_result" && carries_note msg
         then exists (note : object) w1,
                notes = [note]
                /\ helpful_message env (get (msg !!! "result") "message") w1
                   = (Normal note, two_reads w1)
                /\ note !!! "content" = get (msg !!! "result") "message"
                /\ note !!! "type" = VStr "informational"
         else notes = []) /\
        ((partial_update msg = true /\
          exists i m,
            messages state !! i = Some m /\ same_id msg m = true /\
            (forall j m', j < i -> messages state !! j = Some m' ->
                          same_id msg m' = false) /\
            messages state' = <[i := merge m msg]> (messages state) ++ notes /\
            (forall k, merge m msg !! k =
                         match msg !! k with Some v => Some v | None => m !! k end))
         \/ ((partial_update msg = false
              \/ forall m, m ∈ messages state -> same_id msg m = false) /\
             messages state' = messages state ++ msg :: notes))
  | (Throw _, _) =>
      msg !!! "type" = VStr "tool_result" \/ msg !!! "type" = VStr "gui_update"
  end.
Proof.
  destruct (handleMessage env msg state w) as [[state'|e] w'] eqn:Hrun.
  - apply handleMessage_log in Hrun.
    assert (Hnotes : exists notes : list object,
              (if is_str (msg !!! "type") "tool_result" && carries_note msg
               then exists (note : object) w1,
                      notes = [note]
                      /\ helpful_message env (get (msg !!! "result") "message") w1
                         = (Normal note, two_reads w1)
                      /\ note !!! "content" = get (msg !!! "result") "message"
                      /\ note !!! "type" = VStr "informational"
               else notes = []) /\
              messages state' = log_update (messages state) msg ++ notes).
    { destruct (is_str (msg !!! "type") "tool_result" && carries_note msg).
      - destruct Hrun as (note & -> & Hc & Ht & w1 & Hw). exists [note].
        split; [|done]. by exists note, w1.
      - exists []. split; [done | by rewrite app_nil_r]. }
    destruct Hnotes as (notes & Hlen & ->). exists notes. split; [done|].
    destruct (log_update_cases (messages state) msg)
      as [(Hp & i & m & Hm & Hsame & Hfirst & ->) | (Hno & ->)].
    + left. split; [done|]. exists i, m. repeat (split; [done|]).
      intros k. apply merge_lookup.
    + right. split; [done|]. by rewrite <- app_assoc.
  - destruct (is_str (msg !!! "type") "tool_result") eqn:H1;
      [left; by apply is_str_true | apply is_str_false in H1].
    destruct (is_str (msg !!! "type") "gui_update") eqn:H2;
      [right; by apply is_str_true | apply is_str_false in H2].
    destruct (handleMessage_completes env msg state w H1 H2) as (s & Hs).
    congruence.
Qed.

(** ** C2: progress *)

(** C2, counterexample.  The claim's own example: after
    [{type: "progress", percent: 10, status: "start", step: "script"}] and
    then [{type: "progress", percent: 40}], the store does not hold
    [{percent: 40, status: "start", step: "script"}]; [status] and [step]
    are back to the empty string. *)
Lemma C2_counterexample :
  let p :=
    progress (fst (dispatch_all Samples.env [Samples.progress_10; Samples.progress_40]
                     (initial, Samples.w0))) in
  p = Progress.mk (VNum 40) (VStr "") (VStr "")
  /\ p <> Progress.mk (VNum 40) (VStr "start") (VStr "script").
Proof. cbv zeta. split; [by vm_compute|]. vm_compute. discriminate. Qed.

(** C2, as amended.  A [progress] message overwrites the single progress
    value: [percent] takes the message's value unless that is [null] or
    [undefined], in which case the previous [percent] is kept; [status] and
    [step] take the message's value when it is truthy and the empty string
    otherwise, whatever they held before. *)
Theorem C2_progress_overwrite env msg state w :
  msg !!! "type" = VStr "progress" ->
  exists state',
    handleMessage env msg state w = (Normal state', w)
    /\ Progress.percent (progress state') =
         (if nullish (msg !!! "percent") then Progress.percent (progress state)
          else msg !!! "percent")
    /\ Progress.status (progress state') =
         (if truthy (msg !!! "status") then msg !!! "status" else VStr "")
    /\ Progress.step (progress state') =
         (if truthy (msg !!! "step") then msg !!! "step" else VStr "").
Proof.
  intros Htype. rewrite handleMessage_cases. cbv zeta. rewrite Htype.
  eexists. split; [reflexivity|]. by repeat split.
Qed.

Lemma C2_progress_overwrite_witness :
  Samples.progress_40 !!! "type" = VStr "progress"
  /\ exists state',
       handleMessage Samples.env Samples.progress_40 initial Samples.w0
         = (Normal state', Samples.w0)
       /\ Progress.percent (progress state') =
            (if nullish (Samples.progress_40 !!! "percent")
             then Progress.percent (progress initial)
             else Samples.progress_40 !!! "percent")
       /\ Progress.status (progress state') =
            (if truthy (Samples.progress_40 !!! "status")
             then Samples.progress_40 !!! "status" else VStr "")
       /\ Progress.step (progress state') =
            (if truthy (Samples.progress_40 !!! "step")
             then Samples.progress_40 !!! "step" else VStr "").
Proof.
  split; [reflexivity|].
  apply (C2_progress_overwrite Samples.env Samples.progress_40 initial Samples.w0).
  reflexivity.
Defined.

(** ** C3: scripts never sit among the project files *)


Lemma truthy_get_truthy (v : value) (k : string) :
  truthy (get v k) = true -> truthy v = true.
Proof.
  destruct v as [| |b|q|s|l|o]; simpl; try discriminate; try done.
  destruct (String.eqb k "length"); simpl; [|discriminate].
  intros H. apply negb_true_iff in H. destruct s; [discriminate | done].
Qed.

(** A successful [script_writer] result with a truthy [script_text]. *)
Lemma script_writer_result env msg state w :
  msg !!! "type" = VStr "tool_result" ->
  truthy (msg !!! "success") = true ->
  msg !!! "tool" = VStr "script_writer" ->
  truthy (get (msg !!! "result") "script_text") = true ->
  exists state' s,
    handleMessage env msg state w = (Normal state', two_reads w)
    /\ scripts state' = scripts state ++ [s]
    /\ ScriptContent.content s = get (msg !!! "result") "script_text"
    /\ projectFiles state' = without_scripts (projectFiles state).
Proof.
  intros Htype Hsucc Htool Htext.
  rewrite handleMessage_cases. cbv zeta. rewrite Htype.
  change (is_str (VStr "tool_result") "tool_call") with false.
  change (is_str (VStr "tool_result") "tool_result") with true. cbv iota.
  unfold on_tool_result. rewrite and_truthy, Hsucc, Htool, Htext.
  rewrite (truthy_get_truthy _ _ Htext).
  destruct (script_entry_run env (get (msg !!! "result") "script_text") w)
    as (s & Hs & Hcontent & _).
  exists (with_scripts (scripts state ++ [s])
            (with_projectFiles (without_scripts (projectFiles state))
               (with_messages (log_update (messages state) msg)
                  (with_toolResults
                     (toolResults state ++
                        [{| ToolResult.tool := or (VStr "script_writer") (VStr "");
                            ToolResult.step := or (msg !!! "step") (VStr "");
                            ToolResult.result := or (msg !!! "result") (VObj ∅);
                            ToolResult.success := or (msg !!! "success") (VBool false);
                            ToolResult.error := msg !!! "error" |}]) state)))), s.
  split; [|by repeat split].
  change (is_str (VStr "script_writer") "script_writer") with true.
  change (is_str (VStr "script_writer") "broll_finder") with false.
  change (is_str (VStr "script_writer") "voiceover_generator") with false.
  change (is_str (VStr "script_writer") "video_processor") with false.
  cbv [andb]. cbv iota.
  rewrite (bind_run _ _ w (scripts state ++ [s], without_scripts (projectFiles state))
             (two_reads w)); [reflexivity|].
  by rewrite (bind_run _ _ w s (two_reads w) Hs).
Qed.

(** A [script_created] GUI update whose [script_content] is a non-empty
    string. *)
Lemma script_created_update env msg state w text :
  msg !!! "type" = VStr "gui_update" ->
  msg !!! "update_type" = VStr "script_created" ->
  get (msg !!! "data") "script_content" = VStr text ->
  text <> "" ->
  exists state' s,
    handleMessage env msg state w = (Normal state', two_reads w)
    /\ scripts state' = scripts state ++ [s]
    /\ ScriptContent.content s = VStr text
    /\ projectFiles state' = without_scripts (projectFiles state).
Proof.
  intros Htype Hupdate Hcontent Htext.
  rewrite handleMessage_cases. cbv zeta. rewrite Htype.
  change (is_str (VStr "gui_update") "tool_call") with false.
  change (is_str (VStr "gui_update") "tool_result") with false.
  change (is_str (VStr "gui_update") "progress") with false.
  change (is_str (VStr "gui_update") "error") with false.
  change (is_str (VStr "gui_update") "connection_established") with false.
  change (is_str (VStr "gui_update") "adaptive") with false.
  change (is_str (VStr "gui_update") "context_update") with false.
  change (is_str (VStr "gui_update") "gui_update") with true. cbv iota.
  unfold on_gui_update. rewrite Hupdate, Hcontent.
  apply truthy_str in Htext. rewrite Htext.
  destruct (script_entry_run env (VStr text) w) as (s & Hs & Hc & _).
  exists (with_projectFiles (without_scripts (projectFiles state))
            (with_scripts (scripts state ++ [s])
               (with_messages (log_update (messages state) msg) state))), s.
  split; [|by repeat split].
  change (is_str (VStr "script_created") "script_created") with true.
  change (is_str (VStr "script_created") "media_downloaded") with false.
  change (is_str (VStr "script_created") "voiceover_created") with false.
  change (is_str (VStr "script_created") "video_created") with false.
  cbv [andb]. cbv iota.
  rewrite (bind_run _ _ w (scripts state ++ [s], without_scripts (projectFiles state))
             (two_reads w)); [reflexivity|].
  by rewrite (bind_run _ _ w s (two_reads w) Hs).
Qed.





(** ** C5: [connection_established] *)

(** C5, counterexample.  The claim leaves [connectionStatus] unchanged.
    The initial store is [disconnected]; after a [connection_established]
    message it is [connected]. *)
Lemma C5_counterexample :
  let after := fst (dispatch Samples.env Samples.established (initial, Samples.w0)) in
  connectionStatus initial = disconnected
  /\ connectionStatus after = connected
  /\ connectionStatus after <> connectionStatus initial.
Proof. cbv zeta. split; [reflexivity|]. split; [reflexivity | discriminate]. Qed.

(** C5, as amended.  A [connection_established] message goes through the
    append-or-replace step of the log (it is appended unless it is a partial
    update), sets [connectionStatus] to [connected], and leaves every other
    field of the store as it was. *)
Theorem C5_connection_established_frame env msg state w :
  msg !!! "type" = VStr "connection_established" ->
  exists state',
    handleMessage env msg state w = (Normal state', w)
    /\ connectionStatus state' = connected
    /\ messages state' = log_update (messages state) msg
    /\ (partial_update msg = false -> messages state' = messages state ++ [msg])
    /\ toolCalls state' = toolCalls state
    /\ toolResults state' = toolResults state
    /\ progress state' = progress state
    /\ scripts state' = scripts state
    /\ projectFiles state' = projectFiles state
    /\ videoPreviews state' = videoPreviews state
    /\ userContext state' = userContext state
    /\ selectedFile state' = selectedFile state
    /\ error state' = error state.
Proof.
  intros Htype. rewrite handleMessage_cases. cbv zeta. rewrite Htype.
  eexists. split; [reflexivity|]. simpl.
  repeat split. apply log_update_append.
Qed.

Lemma C5_connection_established_frame_witness :
  Samples.established !!! "type" = VStr "connection_established"
  /\ exists state',
       handleMessage Samples.env Samples.established initial Samples.w0
         = (Normal state', Samples.w0)
       /\ connectionStatus state' = connected
       /\ messages state' = log_update (messages initial) Samples.established
       /\ (partial_update Samples.established = false ->
           messages state' = messages initial ++ [Samples.established])
       /\ toolCalls state' = toolCalls initial
       /\ toolResults state' = toolResults initial
       /\ progress state' = progress initial
       /\ scripts state' = scripts initial
       /\ projectFiles state' = projectFiles initial
       /\ videoPreviews state' = videoPreviews initial
       /\ userContext state' = userContext initial
       /\ selectedFile state' = selectedFile initial
       /\ error state' = error initial.
Proof.
  split; [reflexivity|].
  apply (C5_connection_established_frame Samples.env Samples.established initial
           Samples.w0).
  reflexivity.
Defined.

(** ** C9: [error] *)

(** C9, counterexample.  The claim has every error message appended to
    the log.  With one entry of identifier [m1] in the log, an error message
    that is a partial update for [m1] sets the error slot and is merged into
    that entry: the log keeps its length. *)
Lemma C9_counterexample :
  let before := dispatch Samples.env Samples.first_entry (initial, Samples.w0) in
  let after := dispatch Samples.env Samples.partial_boom before in
  error (fst after) = VStr "boom"
  /\ length (messages (fst after)) = length (messages (fst before))
  /\ messages (fst after) <> messages (fst before) ++ [Samples.partial_boom].
Proof.
  cbv zeta. split; [reflexivity|]. split; [reflexivity|].
  intros H. apply (f_equal length) in H. vm_compute in H. discriminate.
Qed.

(** C9, as amended.  An [error] message sets the error slot to its
    [detail] when that is truthy, else to its [message] when that is
    truthy, else to ["Unknown error"]; and it goes through the
    append-or-replace step of the log, so it is appended unless it is a
    partial update. *)
Theorem C9_error_slot env msg state w :
  msg !!! "type" = VStr "error" ->
  exists state',
    handleMessage env msg state w = (Normal state', w)
    /\ error state' =
         (if truthy (msg !!! "detail") then msg !!! "detail"
          else if truthy (msg !!! "message") then msg !!! "message"
          else VStr "Unknown error")
    /\ messages state' = log_update (messages state) msg
    /\ (partial_update msg = false -> messages state' = messages state ++ [msg]).
Proof.
  intros Htype. rewrite handleMessage_cases. cbv zeta. rewrite Htype.
  eexists. split; [reflexivity|]. simpl.
  repeat split. apply log_update_append.
Qed.

(** In particular [error{detail: "boom"}] makes the error slot ["boom"]
    and is appended. *)
Lemma C9_error_slot_witness :
  Samples.boom !!! "type" = VStr "error"
  /\ exists state',
       handleMessage Samples.env Samples.boom initial Samples.w0
         = (Normal state', Samples.w0)
       /\ error state' =
            (if truthy (Samples.boom !!! "detail") then Samples.boom !!! "detail"
             else if truthy (Samples.boom !!! "message")
                  then Samples.boom !!! "message"
                  else VStr "Unknown error")
       /\ messages state' = log_update (messages initial) Samples.boom
       /\ (partial_update Samples.boom = false ->
           messages state' = messages initial ++ [Samples.boom]).
Proof.
  split; [reflexivity|].
  apply (C9_error_slot Samples.env Samples.boom initial Samples.w0).
  reflexivity.
Defined.

(** ** When the reducer throws *)

Lemma completes_ret {A} (a : A) : completes (ret a).
Proof. intros w. by eexists _, _. Qed.

Lemma completes_bind {A B} (m : M A) (k : A -> M B) :
  completes m -> (forall a, completes (k a)) -> completes (bind m k).
Proof.
  intros Hm Hk w. destruct (Hm w) as (a & w1 & H1).
  rewrite (bind_run _ _ _ _ _ H1). apply Hk.
Qed.

Lemma completes_if {A} (c : bool) (m1 m2 : M A) :
  completes m1 -> completes m2 -> completes (if c then m1 else m2).
Proof. by destruct c. Qed.

Lemma completes_script_entry env text : completes (script_entry env text).
Proof. intros w. by eexists _, _. Qed.

Lemma completes_voiceover_file env path : completes (voiceover_file env path).
Proof. intros w. by eexists _, _. Qed.

Lemma completes_video_file env path thumbnail :
  completes (video_file env path thumbnail).
Proof. intros w. by eexists _, _. Qed.

Lemma completes_video_preview env path thumbnail :
  completes (video_preview env path thumbnail).
Proof. intros w. by eexists _, _. Qed.

Lemma completes_helpful_message env text : completes (helpful_message env text).
Proof. intros w. by eexists _, _. Qed.

Lemma forEach_from_completes {A S} (f : A -> nat -> S -> M S) (l : list A) :
  forall (i : nat) (acc : S) (w : World),
  (forall k x, l !! k = Some x ->
     forall acc w, exists acc' w', f x (i + k) acc w = (Normal acc', w')) ->
  exists acc' w', forEach_from f l i acc w = (Normal acc', w').
Proof.
  induction l as [|x l IH]; intros i acc w Hf; simpl.
  - by eexists _, _.
  - destruct (Hf 0 x eq_refl acc w) as (acc1 & w1 & H1).
    rewrite Nat.add_0_r in H1. rewrite (bind_run _ _ _ _ _ H1).
    apply IH. intros k y Hy acc2 w2.
    specialize (Hf (Datatypes.S k) y Hy acc2 w2).
    by replace (Datatypes.S i + k) with (i + Datatypes.S k) by lia.
Qed.

Lemma downloaded_file_completes env file index pf w :
  nullish file = false ->
  exists f w', downloaded_file env file index pf w = (Normal (pf ++ [f]), w').
Proof.
  intros Hn. unfold downloaded_file, prop. rewrite Hn.
  eexists _, _. reflexivity.
Qed.

Lemma path_file_completes env result p index pf w :
  file_type_ok (get result "metadata") index = true ->
  exists f w', path_file env result (VStr p) index pf w = (Normal (pf ++ [f]), w').
Proof.
  unfold file_type_ok, path_file. intros Hok.
  destruct (get (or (at_index (get result "metadata") index) (VObj ∅)) "file_type");
    try discriminate; eexists _, _; reflexivity.
Qed.

Lemma walk_files_completes env files pf w :
  files_ok files = true ->
  exists pf' w',
    (if truthy files && gt_zero env (get files "length")
     then forEach (downloaded_file env) files pf else ret pf) w = (Normal pf', w').
Proof.
  intros Hok. destruct files as [| |b|q|s|l|o]; try discriminate;
    try (by eexists _, _).
  destruct (truthy (VArr l) && _); [|by eexists _, _].
  simpl in *. apply forEach_from_completes. intros k x Hx acc w1.
  rewrite forallb_forall in Hok.
  assert (Hn : nullish x = false).
  { apply negb_true_iff, Hok, list_elem_of_In, list_elem_of_lookup. eauto. }
  destruct (downloaded_file_completes env x (0 + k) acc w1 Hn) as (f & w' & H).
  eauto.
Qed.

Lemma walk_paths_completes env result (c : bool) pf w :
  paths_ok result = true ->
  exists pf' w',
    (if truthy (get result "file_paths")
        && gt_zero env (get (get result "file_paths") "length") && c
     then forEach (path_file env result) (get result "file_paths") pf
     else ret pf) w = (Normal pf', w').
Proof.
  unfold paths_ok. intros Hok.
  destruct (get result "file_paths") as [| |b|q|s|l|o]; try discriminate;
    try (by eexists _, _).
  destruct (truthy (VArr l) && _ && c); [|by eexists _, _].
  simpl. apply andb_prop in Hok as [Hstr Hty].
  rewrite forallb_forall in Hstr. rewrite forallb_forall in Hty.
  apply forEach_from_completes. intros k x Hx acc w1. simpl.
  assert (Hs : path_ok x = true).
  { apply Hstr, list_elem_of_In, list_elem_of_lookup. eauto. }
  destruct x; try discriminate.
  assert (Hk : file_type_ok (get result "metadata") k = true).
  { apply Hty, in_seq. apply lookup_lt_Some in Hx. lia. }
  destruct (path_file_completes env result s k acc w1 Hk) as (f & w' & H). eauto.
Qed.

(** [broll_finder] walks well-formed file lists without throwing. *)
Lemma broll_finder_completes env result pf log :
  broll_ok result = true -> completes (broll_finder env result pf log).
Proof.
  unfold broll_ok. intros [Hf Hp]%andb_prop w. unfold broll_finder.
  destruct (walk_files_completes env _ pf w Hf) as (pf1 & w1 & H1).
  rewrite (bind_run _ _ _ _ _ H1).
  destruct (walk_paths_completes env result
              (negb (truthy (get result "downloaded_files"))
               || is_zero (get (get result "downloaded_files") "length")) pf1 w1 Hp)
    as (pf2 & w2 & H2).
  rewrite (bind_run _ _ _ _ _ H2).
  destruct (truthy (get result "message")); by eexists _, _.
Qed.

(** A [tool_result] is handled without throwing unless it is a
    [broll_finder] result with a malformed file list. *)
Lemma on_tool_result_completes env state msg log :
  (msg !!! "tool" = VStr "broll_finder" -> broll_ok (msg !!! "result") = true) ->
  completes (on_tool_result env state msg log).
Proof.
  intros Hok. unfold on_tool_result.
  apply completes_if; [|apply completes_ret].
  apply completes_bind.
  { apply completes_if; [|apply completes_ret].
    apply completes_bind; [apply completes_script_entry|]. intros s. apply completes_ret. }
  intros [scripts1 pf1]. apply completes_bind.
  { destruct (is_str (msg !!! "tool") "broll_finder") eqn:Ht; simpl;
      [|apply completes_ret].
    apply completes_if; [|apply completes_ret].
    apply broll_finder_completes, Hok. by apply is_str_true. }
  intros [pf2 log2]. apply completes_bind.
  { apply completes_if; [|apply completes_ret].
    apply completes_bind; [apply completes_voiceover_file|]. intros f. apply completes_ret. }
  intros pf3. apply completes_if; [|apply completes_ret].
  apply completes_bind; [apply completes_video_file|]. intros f.
  apply completes_bind; [apply completes_video_preview|]. intros p. apply completes_ret.
Qed.

(** ** C10: the note of a [broll_finder] result *)

(** C10, counterexample.  The claim has the dispatch append the tool result
    itself and then the note.  With one entry of identifier [m1] in the log,
    a [broll_finder] result that is a partial update for [m1] is merged into
    that entry and only the note is appended: the log grows by one entry,
    and the tool result is not the entry before the note. *)
Lemma C10_counterexample :
  let before := dispatch Samples.env Samples.first_entry (initial, Samples.w0) in
  let after := dispatch Samples.env Samples.partial_broll_note before in
  length (messages (fst after)) = S (length (messages (fst before)))
  /\ forall note : object,
       messages (fst after)
       <> messages (fst before) ++ [Samples.partial_broll_note; note].
Proof.
  cbv zeta. split; [reflexivity|].
  intros note H. apply (f_equal length) in H. vm_compute in H. discriminate.
Qed.

(** C10, as amended.  For a [tool_result] of [broll_finder] with truthy
    [success] and a truthy [result.message]: if the call completes, the log
    is the outcome of the append-or-replace step for the tool result
    followed by one more entry, an [informational] message whose [content]
    is [result.message]; when the tool result is not a partial update it is
    itself appended, so the log grows by two entries.  The call throws only
    when a file list of the payload is malformed. *)
Theorem C10_broll_note env msg state w :
  msg !!! "type" = VStr "tool_result" ->
  truthy (msg !!! "success") = true ->
  msg !!! "tool" = VStr "broll_finder" ->
  truthy (get (msg !!! "result") "message") = true ->
  match handleMessage env msg state w with
  | (Normal state', _) =>
      exists note : object,
        messages state' = log_update (messages state) msg ++ [note]
        /\ note !!! "content" = get (msg !!! "result") "message"
        /\ note !!! "type" = VStr "informational"
        /\ (partial_update msg = false ->
            messages state' = messages state ++ [msg; note]
            /\ length (messages state') = length (messages state) + 2)
  | (Throw _, _) => broll_ok (msg !!! "result") = false
  end.
Proof.
  intros Htype Hsucc Htool Hnote.
  assert (Hcarries : is_str (msg !!! "type") "tool_result" && carries_note msg = true).
  { unfold carries_note. rewrite Htype, and_truthy, Hsucc, Htool, Hnote.
    by rewrite (truthy_get_truthy _ _ Hnote). }
  destruct (handleMessage env msg state w) as [[state'|e] w'] eqn:Hrun.
  - apply handleMessage_log in Hrun. rewrite Hcarries in Hrun.
    destruct Hrun as (note & Hlog & Hcontent & Hty & _).
    exists note. repeat (split; [done|]).
    intros Hp. rewrite Hlog, (log_update_append _ _ Hp), <- app_assoc.
    split; [done|]. rewrite !length_app. simpl. lia.
  - destruct (broll_ok (msg !!! "result")) eqn:Hok; [|done].
    rewrite handleMessage_cases in Hrun. cbv zeta in Hrun. rewrite Htype in Hrun.
    change (is_str (VStr "tool_result") "tool_call") with false in Hrun.
    change (is_str (VStr "tool_result") "tool_result") with true in Hrun.
    cbv iota in Hrun.
    destruct (on_tool_result_completes env state msg
                (log_update (messages state) msg) (fun _ => Hok) w) as (s & w1 & Hs).
    congruence.
Qed.

Lemma C10_broll_note_witness :
  match handleMessage Samples.env Samples.broll_note initial Samples.w0 with
  | (Normal state', _) =>
      exists note : object,
        messages state' = log_update (messages initial) Samples.broll_note ++ [note]
        /\ note !!! "content" = get (Samples.broll_note !!! "result") "message"
        /\ note !!! "type" = VStr "informational"
        /\ (partial_update Samples.broll_note = false ->
            messages state' = messages initial ++ [Samples.broll_note; note]
            /\ length (messages state') = length (messages initial) + 2)
  | (Throw _, _) => broll_ok (Samples.broll_note !!! "result") = false
  end.
Proof.
  apply (C10_broll_note Samples.env Samples.broll_note initial Samples.w0);
    reflexivity.
Defined.

(** ** The connection manager *)


(** ** C4: the reconnect policy *)






(** ** C6: [connect] is idempotent on an open connection *)

Lemma one_live (l : list Connection.Socket) (ws : nat) (s : Connection.Socket) :
  l !! ws = Some s -> live s = true ->
  (forall i s', l !! i = Some s' -> live s' = true -> i = ws) ->
  length (List.filter live l) = 1.
Proof.
  revert ws. induction l as [|a l IH]; intros ws Hs Hl Hu; [done|].
  destruct ws as [|ws]; simpl in *.
  - injection Hs as ->. rewrite Hl. simpl. f_equal.
    assert (Hnone : forall s', s' ∈ l -> live s' = false).
    { intros s' [i Hi]%list_elem_of_lookup. destruct (live s') eqn:E; [|done].
      specialize (Hu (S i) s' Hi E). done. }
    clear -Hnone. induction l as [|b l IH]; [done|]. simpl.
    rewrite (Hnone b ltac:(left)). apply IH. intros s' Hs'. apply Hnone. by right.
  - destruct (live a) eqn:Ea.
    + specialize (Hu 0 a eq_refl Ea). done.
    + apply (IH ws); [done|done|]. intros i s' Hi Hl'.
      specialize (Hu (S i) s' Hi Hl'). lia.
Qed.

(** C6.  With an empty session identifier [connect] returns at once, and
    so it does when the socket in [wsRef] is open: the hook, its sockets,
    its timers and the store are exactly as before, so nothing was closed,
    nothing was opened and no status changed.  As only the socket in
    [wsRef] can be live, exactly one live connection remains. *)
Theorem C6_connect_idempotent wsUrl h :
  (Connection.sessionIdRef h = "" -> Connection.connect wsUrl h = h)
  /\ (forall ws,
        Connection.wsRef h = Some ws ->
        Connection.readyState_of h ws = Some Connection.OPEN ->
        Connection.connect wsUrl h = h
        /\ Connection.connect wsUrl (Connection.connect wsUrl h) = h
        /\ (single_live h ->
            length (List.filter live (Connection.sockets (Connection.connect wsUrl h)))
              = 1)).
Proof.
  split.
  - intros Hs. unfold Connection.connect. by rewrite Hs.
  - intros ws Href Hopen.
    assert (Hc : Connection.connect wsUrl h = h).
    { unfold Connection.connect. rewrite Href, Hopen.
      by destruct (String.eqb (Connection.sessionIdRef h) ""). }
    rewrite !Hc. repeat split.
    intros Hinv. unfold Connection.readyState_of in Hopen.
    destruct (Connection.sockets h !! ws) as [s|] eqn:Hs; [|done].
    simpl in Hopen. injection Hopen as Hopen.
    apply (one_live _ ws s Hs); [unfold live; by rewrite Hopen|].
    intros i s' Hi Hl. specialize (Hinv i s' Hi Hl). congruence.
Qed.

Lemma C6_connect_idempotent_witness :
  Connection.connect "ws://localhost:8001/api/stream/s1" Samples.opened = Samples.opened
  /\ Connection.connect "ws://localhost:8001/api/stream/s1"
       (Connection.connect "ws://localhost:8001/api/stream/s1" Samples.opened)
     = Samples.opened
  /\ length (List.filter live
               (Connection.sockets
                  (Connection.connect "ws://localhost:8001/api/stream/s1"
                     Samples.opened))) = 1
  /\ Connection.connect "ws://localhost:8001/api/stream/s1"
       (Connection.unmounted false initial Samples.w0)
     = Connection.unmounted false initial Samples.w0.
Proof.
  destruct (C6_connect_idempotent "ws://localhost:8001/api/stream/s1" Samples.opened)
    as [_ Hopen].
  destruct (Hopen 0 eq_refl eq_refl) as (H1 & H2 & H3).
  split; [exact H1|]. split; [exact H2|]. split.
  - apply H3. intros [|i] s Hs Hl; [reflexivity | discriminate].
  - apply (C6_connect_idempotent "ws://localhost:8001/api/stream/s1"
             (Connection.unmounted false initial Samples.w0)).
    reflexivity.
Defined.

(** ** The presentation adapter *)

Lemma substring_snoc (s : string) (n k : nat) (c : Ascii.ascii) :
  String.get (n + k) s = Some c ->
  String.substring n k s +:+ String c "" = String.substring n (S k) s.
Proof.
  revert n k. induction s as [|a s IH]; intros n k H; [by destruct n, k|].
  destruct n as [|n].
  - destruct k as [|k]; simpl in *.
    + injection H as ->. by destruct s.
    + change (String a (String.substring 0 k s +:+ String c "")
              = String a (String.substring 0 (S k) s)).
      f_equal. by apply (IH 0 k).
  - simpl in *. by apply IH.
Qed.

Lemma substring_none (s : string) (n : nat) : String.substring n 0 s = "".
Proof. revert n. induction s as [|a s IH]; intros [|n]; simpl; done. Qed.

Lemma substring_length (s : string) (n k : nat) :
  n + k <= String.length s -> String.length (String.substring n k s) = k.
Proof.
  revert n k. induction s as [|a s IH]; intros n k H; simpl in *.
  - assert (n = 0 /\ k = 0) as [-> ->] by lia. done.
  - destruct n as [|n].
    + destruct k as [|k]; [done|]. simpl. f_equal. apply IH. simpl. lia.
    + apply IH. lia.
Qed.

Lemma length_append (a b : string) :
  String.length (a +:+ b) = String.length a + String.length b.
Proof.
  induction a as [|c a IH]; [done|].
  change (S (String.length (a +:+ b)) = S (String.length a + String.length b)).
  by rewrite IH.
Qed.

Lemma get_length (s : string) : String.get (String.length s) s = None.
Proof. induction s as [|a s IH]; done. Qed.

Lemma get_lt (s : string) (k : nat) :
  k < String.length s -> exists c, String.get k s = Some c.
Proof.
  revert k. induction s as [|a s IH]; intros k H; simpl in *; [lia|].
  destruct k as [|k]; [by eexists|]. apply IH. lia.
Qed.

(** One more firing shows one more step of [shown]. *)
Lemma plus_char_shown (s : string) (k : nat) :
  k < String.length s -> Streaming.plus_char (shown s k) s (S k) = shown s (S k).
Proof.
  intros Hk. unfold Streaming.plus_char, shown.
  destruct (Nat.ltb_spec k (String.length s)) as [_|]; [|lia].
  destruct (Nat.ltb_spec (S k) (String.length s)) as [Hlt|Hge].
  - destruct (get_lt s (S k) Hlt) as (c & Hc). rewrite Hc.
    by apply (substring_snoc s 1 k c).
  - assert (S k = String.length s) as Heq by lia. rewrite Heq, get_length.
    by replace (String.length s - 1) with k by lia.
Qed.

Lemma shown_length (s : string) :
  s <> "" ->
  String.length (shown s (String.length s)) = String.length s + 8.
Proof.
  intros Hs. unfold shown. rewrite Nat.ltb_irrefl, length_append, substring_length.
  - destruct s; [done|]. simpl. lia.
  - destruct s; [done|]. simpl. lia.
Qed.

Section Reveal.
Variables (m : Streaming.Message) (speed : Z).
Hypothesis Hty : Streaming.type m = "ai_message".
Hypothesis Htext : Streaming.fullText m <> "".
Hypothesis Hpartial : Streaming.is_partial m = false.
Hypothesis Hcomplete : Streaming.is_complete m = false.

Lemma text_length : 0 < String.length (Streaming.fullText m).
Proof using Htext. destruct (Streaming.fullText m); [done | simpl; lia]. Qed.

(** The first render starts the reveal timer. *)
Lemma mount_starts : Streaming.mount m speed = revealing m speed 0.
Proof using All.
  unfold Streaming.mount, Streaming.message_effect, Streaming.startStreaming.
  rewrite Hty, Hpartial, Hcomplete.
  destruct (String.eqb_spec (Streaming.fullText m) ""); [done|]. simpl.
  unfold revealing, shown. pose proof text_length as Hlen.
  destruct (Nat.ltb_spec 0 (String.length (Streaming.fullText m))); [|lia].
  by rewrite substring_none.
Qed.

(** A firing before the end of the text: the updater reads the index the
    callback has just incremented. *)
Lemma fire_reveals k :
  k < String.length (Streaming.fullText m) ->
  Streaming.fire m speed 1 (revealing m speed k) = revealing m speed (S k).
Proof using All.
  intros Hk. unfold Streaming.fire, Streaming.tick, Streaming.reveal. simpl.
  destruct (Nat.ltb_spec k (String.length (Streaming.fullText m))); [|lia].
  unfold Streaming.settle. simpl.
  unfold revealing. f_equal. by apply plus_char_shown.
Qed.

(** The firing after them ends the run and leaves the text as it is. *)
Lemma fire_finishes :
  Streaming.fire m speed 1 (revealing m speed (String.length (Streaming.fullText m)))
  = finished m.
Proof using All.
  unfold Streaming.fire, Streaming.tick, Streaming.reveal. simpl.
  rewrite Nat.ltb_irrefl. unfold Streaming.settle. simpl.
  unfold Streaming.message_effect. rewrite Hty, Hpartial, Hcomplete.
  destruct (String.eqb_spec (Streaming.fullText m) ""); [done|]. reflexivity.
Qed.

Lemma fires_reveal k j :
  j + k <= String.length (Streaming.fullText m) ->
  Streaming.fires m speed 1 k (revealing m speed j) = revealing m speed (j + k).
Proof using All.
  revert j. induction k as [|k IH]; intros j H; simpl.
  - by rewrite Nat.add_0_r.
  - rewrite (fire_reveals j ltac:(lia)), IH; [|lia]. f_equal. lia.
Qed.

(** Skipping, from any state of the adapter, is [stopStreaming] alone: the
    effect that runs afterwards finds nothing to do. *)
Lemma skip_stops a :
  Streaming.skip m speed a
  = Streaming.show (Streaming.fullText m) false false true (Streaming.clear_ref a).
Proof using All.
  unfold Streaming.skip, Streaming.stopStreaming, Streaming.settle.
  destruct (Streaming.deps_changed a _); [|done].
  unfold Streaming.message_effect. rewrite Hty, Hpartial, Hcomplete.
  destruct (String.eqb_spec (Streaming.fullText m) ""); [done|]. reflexivity.
Qed.

End Reveal.

Lemma fires_snoc m speed i k a :
  Streaming.fires m speed i (S k) a
  = Streaming.fire m speed i (Streaming.fires m speed i k a).
Proof. revert a. induction k as [|k IH]; intros a; [done|]. simpl in *. by rewrite IH. Qed.

Lemma clear_ref_gone (a : Streaming.Adapter) (r : positive) (iv : Streaming.Interval) :
  Streaming.streamIntervalRef a = Some r ->
  iv ∈ Streaming.intervals (Streaming.clear_ref a) -> Streaming.id iv <> r.
Proof.
  unfold Streaming.clear_ref. intros ->. simpl.
  rewrite list_elem_of_In, filter_In. intros [_ H] Heq.
  by rewrite Heq, Pos.eqb_refl in H.
Qed.

(** ** C7: the typewriter and the skip *)

(** C7, what the code does.  For an [ai_message] that is neither partial
    nor complete and whose text has [N >= 1] characters, the first render
    starts one reveal timer with the configured period, and [N] firings
    pass before the one that makes [isComplete] true, as the claim says.
    But the text is not revealed.  The updater of each firing reads
    [currentIndex] after the callback has incremented it: the [k]-th firing,
    for [k < N], appends the character at index [k], so the first character
    is never shown, and the [N]-th firing appends the nine characters of
    ["undefined"].  The adapter ends complete with [N + 8] characters on
    display, which is not the text.  The skip does what the claim says:
    from any state it shows the full text in that one step, clears the
    timer held in the ref, hides the cursor and leaves the adapter
    complete. *)
Theorem C7_reveal_drops_first_character m speed :
  Streaming.type m = "ai_message" ->
  Streaming.fullText m <> "" ->
  Streaming.is_partial m = false ->
  Streaming.is_complete m = false ->
  let N := String.length (Streaming.fullText m) in
  let after k := Streaming.fires m speed 1 k (Streaming.mount m speed) in
  Streaming.intervals (after 0) =
    [{| Streaming.id := 1%positive; Streaming.text := Streaming.fullText m;
        Streaming.currentIndex := 0; Streaming.every := speed |}]
  /\ (forall k, k < N ->
        Streaming.displayedText (after (S k))
        = Streaming.plus_char (Streaming.displayedText (after k))
            (Streaming.fullText m) (S k))
  /\ (forall k, k <= N ->
        Streaming.displayedText (after k) = shown (Streaming.fullText m) k
        /\ Streaming.isStreaming (after k) = true
        /\ Streaming.isComplete (after k) = false)
  /\ (Streaming.isComplete (after (S N)) = true
      /\ Streaming.displayedText (after (S N))
         = String.substring 1 (N - 1) (Streaming.fullText m) +:+ "undefined"
      /\ String.length (Streaming.displayedText (after (S N))) = N + 8
      /\ Streaming.displayedText (after (S N)) <> Streaming.fullText m
      /\ Streaming.isStreaming (after (S N)) = false
      /\ Streaming.showCursor (after (S N)) = false
      /\ Streaming.intervals (after (S N)) = []
      /\ Streaming.completions (after (S N)) = 1)
  /\ (forall a,
        let s := Streaming.skip m speed a in
        Streaming.displayedText s = Streaming.fullText m
        /\ Streaming.isStreaming s = false
        /\ Streaming.showCursor s = false
        /\ Streaming.isComplete s = true
        /\ Streaming.streamIntervalRef s = None
        /\ (forall r iv, Streaming.streamIntervalRef a = Some r ->
                         iv ∈ Streaming.intervals s -> Streaming.id iv <> r)).
Proof.
  intros Hty Htext Hpartial Hcomplete N after.
  assert (Hafter : forall k, k <= N -> after k = revealing m speed k).
  { intros k Hk. unfold after.
    rewrite (mount_starts m speed Hty Htext Hpartial Hcomplete).
    by rewrite (fires_reveal m speed Hty Htext Hpartial Hcomplete k 0 Hk). }
  assert (Hend : after (S N) = finished m).
  { unfold after. rewrite fires_snoc. fold (after N). rewrite (Hafter N (le_n N)).
    apply (fire_finishes m speed Hty Htext Hpartial Hcomplete). }
  assert (Hlast : shown (Streaming.fullText m) N
                  = String.substring 1 (N - 1) (Streaming.fullText m) +:+ "undefined").
  { unfold shown. fold N. by rewrite Nat.ltb_irrefl. }
  split; [by rewrite (Hafter 0 ltac:(lia))|]. split.
  { intros k Hk. rewrite (Hafter (S k) ltac:(lia)), (Hafter k ltac:(lia)). simpl.
    symmetry. by apply plus_char_shown. }
  split; [intros k Hk; by rewrite (Hafter k Hk)|].
  split.
  { rewrite Hend. simpl. fold N. split; [done|]. split; [done|].
    split; [by apply shown_length|]. split; [|done].
    intros Heq. apply (f_equal String.length) in Heq. unfold N in Heq.
    rewrite (shown_length _ Htext) in Heq. lia. }
  intros a s. unfold s. rewrite (skip_stops m speed Hty Htext Hpartial Hcomplete a).
  repeat (split; [try done|]).
  - simpl. unfold Streaming.clear_ref.
    by destruct (Streaming.streamIntervalRef a) eqn:E.
  - intros r iv Hr. simpl. by apply clear_ref_gone.
Qed.

Lemma C7_reveal_drops_first_character_witness :
  let m := Samples.hello in
  let after k := Streaming.fires m 15 1 k (Streaming.mount m 15) in
  (Streaming.displayedText (after 1) = "e"
   /\ Streaming.displayedText (after 2) = "el"
   /\ Streaming.displayedText (after 3) = "ell"
   /\ Streaming.displayedText (after 4) = "ello"
   /\ Streaming.displayedText (after 5) = "elloundefined"
   /\ Streaming.isComplete (after 5) = false)
  /\ Streaming.intervals (after 0) =
       [{| Streaming.id := 1%positive; Streaming.text := "Hello";
           Streaming.currentIndex := 0; Streaming.every := 15 |}]
  /\ (forall k, k < 5 ->
        Streaming.displayedText (after (S k))
        = Streaming.plus_char (Streaming.displayedText (after k)) "Hello" (S k))
  /\ (forall k, k <= 5 ->
        Streaming.displayedText (after k) = shown "Hello" k
        /\ Streaming.isStreaming (after k) = true
        /\ Streaming.isComplete (after k) = false)
  /\ (Streaming.isComplete (after 6) = true
      /\ Streaming.displayedText (after 6) = "elloundefined"
      /\ String.length (Streaming.displayedText (after 6)) = 13
      /\ Streaming.displayedText (after 6) <> "Hello"
      /\ Streaming.isStreaming (after 6) = false
      /\ Streaming.showCursor (after 6) = false
      /\ Streaming.intervals (after 6) = []
      /\ Streaming.completions (after 6) = 1)
  /\ (forall a,
        let s := Streaming.skip m 15 a in
        Streaming.displayedText s = "Hello"
        /\ Streaming.isStreaming s = false
        /\ Streaming.showCursor s = false
        /\ Streaming.isComplete s = true
        /\ Streaming.streamIntervalRef s = None
        /\ (forall r iv, Streaming.streamIntervalRef a = Some r ->
                         iv ∈ Streaming.intervals s -> Streaming.id iv <> r)).
Proof.
  split; [repeat split; reflexivity|].
  apply (C7_reveal_drops_first_character Samples.hello 15);
    [reflexivity | discriminate | reflexivity | reflexivity].
Defined.

(** ** C8: messages that are not animated *)

(** C8, counterexample.  The claim has an [ai_message] with empty text go
    straight to [complete].  The first render of such a message leaves the
    adapter in its initial state: [isComplete] is false. *)
Lemma C8_counterexample :
  Streaming.fullText Samples.empty_ai = ""
  /\ Streaming.isComplete (Streaming.mount Samples.empty_ai 15) = false.
Proof. split; reflexivity. Qed.

(** C8, as amended.  On the first render a message whose type is not
    [ai_message] goes straight to the complete state with its full text
    shown: complete, not streaming, no cursor, no timer.  An [ai_message]
    with empty text is left in the initial state: nothing is displayed, it
    is not streaming, no cursor is shown, and [isComplete] stays false. *)
Theorem C8_first_render m speed :
  (Streaming.type m <> "ai_message" ->
     let a := Streaming.mount m speed in
     Streaming.isComplete a = true
     /\ Streaming.isStreaming a = false
     /\ Streaming.showCursor a = false
     /\ Streaming.displayedText a = Streaming.fullText m
     /\ Streaming.intervals a = [])
  /\ (Streaming.type m = "ai_message" -> Streaming.fullText m = "" ->
      Streaming.mount m speed = Streaming.initial
      /\ Streaming.isComplete (Streaming.mount m speed) = false
      /\ Streaming.displayedText (Streaming.mount m speed) = Streaming.fullText m).
Proof.
  split.
  - intros Hty. cbv zeta. unfold Streaming.mount, Streaming.message_effect.
    destruct (String.eqb_spec (Streaming.type m) "ai_message"); [done|]. simpl.
    destruct (String.eqb_spec (Streaming.type m) "ai_message"); [done|]. by simpl.
  - intros Hty Htext. unfold Streaming.mount, Streaming.message_effect.
    rewrite Hty, Htext. by simpl.
Qed.

Lemma C8_first_render_witness :
  (let a := Streaming.mount Samples.info 15 in
   Streaming.isComplete a = true
   /\ Streaming.isStreaming a = false
   /\ Streaming.showCursor a = false
   /\ Streaming.displayedText a = Streaming.fullText Samples.info
   /\ Streaming.intervals a = [])
  /\ (Streaming.mount Samples.empty_ai 15 = Streaming.initial
      /\ Streaming.isComplete (Streaming.mount Samples.empty_ai 15) = false
      /\ Streaming.displayedText (Streaming.mount Samples.empty_ai 15)
         = Streaming.fullText Samples.empty_ai).
Proof.
  split.
  - apply (C8_first_render Samples.info 15). discriminate.
  - apply (C8_first_render Samples.empty_ai 15); reflexivity.
Defined.

(** * Further properties of the store *)

Ltac nothing_added := exists []; split; [by rewrite app_nil_r | simpl; lia].
Ltac one_added x := exists [x]; split; [done | simpl; lia].

(** What a completed [tool_result] branch leaves untouched and what it
    extends. *)
Lemma on_tool_result_frame env state msg log w state' w' :
  on_tool_result env state msg log w = (Normal state', w') ->
  connectionStatus state' = connectionStatus state
  /\ error state' = error state
  /\ toolCalls state' = toolCalls state
  /\ toolResults state' = toolResults state ++ [toolResult_of msg]
  /\ progress state' = progress state
  /\ selectedFile state' = selectedFile state
  /\ userContext state' = userContext state
  /\ (exists added, scripts state' = scripts state ++ added /\ length added <= 1)
  /\ (exists added,
        videoPreviews state' = videoPreviews state ++ added /\ length added <= 1).
Proof.
  unfold on_tool_result. intros H.
  destruct (truthy (and (msg !!! "success") (msg !!! "result"))).
  2:{ injection H as <- <-. simpl. repeat (split; [done|]). split; nothing_added. }
  apply bind_Normal in H as ([scripts1 pf1] & w1 & Hs & H).
  apply bind_Normal in H as ([pf2 log2] & w2 & _ & H).
  apply bind_Normal in H as (pf3 & w3 & _ & H).
  assert (Hscripts : exists added, scripts1 = scripts state ++ added /\ length added <= 1).
  { destruct (is_str (msg !!! "tool") "script_writer" && _).
    - apply bind_Normal in Hs as (s & w4 & _ & Hs). injection Hs as <- _ _.
      one_added s.
    - injection Hs as <- _ _. nothing_added. }
  destruct (is_str (msg !!! "tool") "video_processor" && _).
  - apply bind_Normal in H as (f & w4 & _ & H).
    apply bind_Normal in H as (p & w5 & _ & H). injection H as <- <-. simpl.
    repeat (split; [done|]). one_added p.
  - injection H as <- <-. simpl. repeat (split; [done|]). nothing_added.
Qed.

Lemma on_gui_update_frame env state msg log w state' w' :
  on_gui_update env state msg log w = (Normal state', w') ->
  connectionStatus state' = connectionStatus state
  /\ error state' = error state
  /\ toolCalls state' = toolCalls state
  /\ toolResults state' = toolResults state
  /\ progress state' = progress state
  /\ selectedFile state' = selectedFile state
  /\ userContext state' = userContext state
  /\ (exists added, scripts state' = scripts state ++ added /\ length added <= 1)
  /\ (exists added,
        videoPreviews state' = videoPreviews state ++ added /\ length added <= 1).
Proof.
  unfold on_gui_update. intros H.
  apply bind_Normal in H as ([scripts1 pf1] & w1 & Hs & H).
  apply bind_Normal in H as (pf2 & w2 & _ & H).
  apply bind_Normal in H as (pf3 & w3 & _ & H).
  assert (Hscripts : exists added, scripts1 = scripts state ++ added /\ length added <= 1).
  { destruct (is_str (msg !!! "update_type") "script_created" && _).
    - destruct (get (msg !!! "data") "script_content") as [| |?|?|text|?|?];
        try discriminate.
      apply bind_Normal in Hs as (s & w4 & _ & Hs). injection Hs as <- _ _.
      one_added s.
    - injection Hs as <- _ _. nothing_added. }
  destruct (is_str (msg !!! "update_type") "video_created" && _).
  - apply bind_Normal in H as (f & w4 & _ & H).
    apply bind_Normal in H as (p & w5 & _ & H). injection H as <- <-. simpl.
    repeat (split; [done|]). one_added p.
  - injection H as <- <-. simpl. repeat (split; [done|]). nothing_added.
Qed.

(** The effect of a completed call on the fields other than the log and
    the project files, by message type. *)
Lemma handleMessage_frame env msg state w state' w' :
  handleMessage env msg state w = (Normal state', w') ->
  let type := msg !!! "type" in
  selectedFile state' = selectedFile state
  /\ toolCalls state' =
       toolCalls state ++ (if is_str type "tool_call" then [toolCall_of msg] else [])
  /\ toolResults state' =
       toolResults state ++ (if is_str type "tool_result" then [toolResult_of msg] else [])
  /\ connectionStatus state' =
       (if is_str type "connection_established" then connected
        else connectionStatus state)
  /\ (is_str type "error" = false -> error state' = error state)
  /\ (is_str type "progress" = false -> progress state' = progress state)
  /\ (exists added, scripts state' = scripts state ++ added /\ length added <= 1)
  /\ (exists added,
        videoPreviews state' = videoPreviews state ++ added /\ length added <= 1).
Proof.
  rewrite handleMessage_cases. cbv zeta.
  destruct (msg !!! "type") as [| |b|q|s|l|o];
    try (simpl; intros H; injection H as <- <-; simpl; rewrite !app_nil_r;
         repeat (split; [done|]); split; nothing_added).
  unfold is_str, strict_eq.
  repeat (match goal with
          | |- context [String.eqb s ?x] =>
              destruct (String.eqb_spec s x);
              [subst;
               try (simpl; intros H; injection H as <- <-; simpl; rewrite ?app_nil_r;
                    repeat (split; [done|]); split; nothing_added)|]
          end);
    try (simpl; intros H; injection H as <- <-; simpl; rewrite !app_nil_r;
         repeat (split; [done|]); split; nothing_added).
  - simpl. intros H. apply on_tool_result_frame in H. rewrite app_nil_r.
    destruct H as (Hc & He & Htc & Htr & Hp & Hsel & Hu & Hs & Hv).
    repeat (split; [done|]). done.
  - simpl. intros H. apply on_gui_update_frame in H. rewrite !app_nil_r.
    destruct H as (Hc & He & Htc & Htr & Hp & Hsel & Hu & Hs & Hv).
    repeat (split; [done|]). done.
Qed.

(** ** The log over a sequence of dispatches *)

Lemma dispatch_log env msg sw :
  messages (fst (dispatch env msg sw)) = messages (fst sw)
  \/ exists notes, length notes <= 1 /\
       messages (fst (dispatch env msg sw)) = log_update (messages (fst sw)) msg ++ notes.
Proof.
  unfold dispatch.
  destruct (handleMessage env msg (fst sw) (snd sw)) as [[state'|e] w'] eqn:Hrun;
    [|by left].
  right. apply handleMessage_log in Hrun. simpl.
  destruct (is_str (msg !!! "type") "tool_result" && carries_note msg).
  - destruct Hrun as (note & -> & _). exists [note]. by split.
  - exists []. split; [simpl; lia | by rewrite app_nil_r].
Qed.

Lemma log_update_keeps (log : list object) (msg : object) (i : nat) (m : object) :
  log !! i = Some m ->
  log_update log msg !! i = Some m \/ log_update log msg !! i = Some (merge m msg).
Proof.
  intros Hm.
  destruct (log_update_cases log msg) as [(_ & j & m' & Hj & _ & _ & ->) | (_ & ->)].
  - destruct (decide (i = j)) as [->|Hne].
    + right. rewrite list_lookup_insert_eq; [congruence|]. by apply lookup_lt_Some in Hj.
    + left. by rewrite list_lookup_insert_ne.
  - left. by apply lookup_app_l_Some.
Qed.

Lemma dispatch_keeps env msg sw (i : nat) (m : object) :
  messages (fst sw) !! i = Some m ->
  messages (fst (dispatch env msg sw)) !! i = Some m
  \/ messages (fst (dispatch env msg sw)) !! i = Some (merge m msg).
Proof.
  intros Hm. destruct (dispatch_log env msg sw) as [-> | (notes & _ & ->)]; [by left|].
  destruct (log_update_keeps _ msg i m Hm) as [H|H]; [left|right];
    by apply lookup_app_l_Some.
Qed.

Lemma dispatch_all_cons env msg msgs sw :
  dispatch_all env (msg :: msgs) sw = dispatch_all env msgs (dispatch env msg sw).
Proof. reflexivity. Qed.

(** X1.  Over any sequence of calls of [handleMessage], whether they
    complete or throw, the log is append-or-replace only.  It never gets
    shorter and grows by at most two entries per call; and an entry never
    moves or disappears: what sits at its index afterwards is the entry
    itself with some of the dispatched messages merged into it, in
    order. *)
Theorem X1_log_append_replace_only env msgs sw :
  let log := messages (fst sw) in
  let log' := messages (fst (dispatch_all env msgs sw)) in
  length log <= length log' <= length log + 2 * length msgs
  /\ forall i m, log !! i = Some m ->
       exists updates,
         log' !! i = Some (foldl merge m updates)
         /\ forall u, u ∈ updates -> u ∈ msgs.
Proof.
  cbv zeta. split.
  - revert sw. induction msgs as [|msg msgs IH]; intros sw; [simpl; lia|].
    rewrite dispatch_all_cons. specialize (IH (dispatch env msg sw)).
    assert (length (messages (fst sw)) <= length (messages (fst (dispatch env msg sw)))
            <= length (messages (fst sw)) + 2).
    { destruct (dispatch_log env msg sw) as [-> | (notes & Hn & ->)]; [lia|].
      rewrite length_app. pose proof (log_update_length (messages (fst sw)) msg). lia. }
    simpl length. lia.
  - intros i. revert sw. induction msgs as [|msg msgs IH]; intros sw m Hm.
    + exists []. split; [done|]. intros u Hu. by apply elem_of_nil in Hu.
    + rewrite dispatch_all_cons.
      destruct (dispatch_keeps env msg sw i m Hm) as [H|H].
      * destruct (IH _ _ H) as (updates & Hu & Hin). exists updates. split; [done|].
        intros u Hu'. right. by apply Hin.
      * destruct (IH _ _ H) as (updates & Hu & Hin). exists (msg :: updates).
        split; [done|]. intros u [->|Hu']%elem_of_cons; [left | right; by apply Hin].
Qed.

(** ** Tool calls *)

Lemma handleMessage_throws_only env msg state w e w' :
  handleMessage env msg state w = (Throw e, w') ->
  msg !!! "type" = VStr "tool_result" \/ msg !!! "type" = VStr "gui_update".
Proof.
  intros Hrun.
  destruct (is_str (msg !!! "type") "tool_result") eqn:H1;
    [left; by apply is_str_true | apply is_str_false in H1].
  destruct (is_str (msg !!! "type") "gui_update") eqn:H2;
    [right; by apply is_str_true | apply is_str_false in H2].
  destruct (handleMessage_completes env msg state w H1 H2) as (s & Hs). congruence.
Qed.

Lemma dispatch_toolCalls env msg sw :
  toolCalls (fst (dispatch env msg sw)) =
    toolCalls (fst sw) ++
      (if is_str (msg !!! "type") "tool_call" then [toolCall_of msg] else []).
Proof.
  unfold dispatch.
  destruct (handleMessage env msg (fst sw) (snd sw)) as [[state'|e] w'] eqn:Hrun.
  - apply handleMessage_frame in Hrun. cbv zeta in Hrun. simpl. by destruct Hrun as (_ & -> & _).
  - simpl. apply handleMessage_throws_only in Hrun as [-> | ->]; simpl;
      by rewrite app_nil_r.
Qed.

(** X2.  Over any sequence of dispatches, [toolCalls] gains exactly one
    entry per [tool_call] message, in arrival order and with missing fields
    defaulted; no other message touches it and no entry is merged, dropped
    or deduplicated, so repeated calls of one tool stay distinct entries. *)
Theorem X2_tool_calls_recorded env msgs sw :
  toolCalls (fst (dispatch_all env msgs sw)) =
    toolCalls (fst sw) ++
      List.map toolCall_of
        (List.filter (fun msg => is_str (msg !!! "type") "tool_call") msgs).
Proof.
  revert sw. induction msgs as [|msg msgs IH]; intros sw; simpl.
  - by rewrite app_nil_r.
  - change (foldl _ _ msgs) with (dispatch_all env msgs (dispatch env msg sw)).
    rewrite IH, dispatch_toolCalls.
    destruct (is_str (msg !!! "type") "tool_call"); simpl.
    + by rewrite <- app_assoc.
    + by rewrite app_nil_r.
Qed.

(** ** Media reported by [broll_finder] *)

Lemma gt_zero_num env n : gt_zero env (num n) = negb (Nat.eqb n 0).
Proof. unfold gt_zero, num, Qle_bool. by destruct n. Qed.

Lemma is_zero_num n : is_zero (num n) = Nat.eqb n 0.
Proof. unfold is_zero, num, strict_eq, Qeq_bool. by destruct n. Qed.

Lemma truthy_arr_get (v : value) (k : string) (l : list value) :
  get v k = VArr l -> truthy v = true.
Proof. intros H. apply (truthy_get_truthy v k). by rewrite H. Qed.

(** A loop whose callback pushes one element per item yields one element
    per item, in order. *)
Lemma forEach_from_push {A B} (f : A -> nat -> list B -> M (list B))
    (R : nat -> A -> B -> Prop) (l : list A) :
  forall (i : nat) (acc : list B) (w : World),
  (forall k x, l !! k = Some x ->
     forall acc w, exists y w',
       f x (i + k) acc w = (Normal (acc ++ [y]), w') /\ R (i + k) x y) ->
  exists ys w',
    forEach_from f l i acc w = (Normal (acc ++ ys), w')
    /\ length ys = length l
    /\ forall k x, l !! k = Some x -> exists y, ys !! k = Some y /\ R (i + k) x y.
Proof.
  induction l as [|x l IH]; intros i acc w Hf; simpl.
  - exists [], w. rewrite app_nil_r. split; [done|]. split; [done|]. intros k y Hy. done.
  - destruct (Hf 0 x eq_refl acc w) as (y & w1 & H1 & HR).
    rewrite Nat.add_0_r in H1, HR. rewrite (bind_run _ _ _ _ _ H1).
    destruct (IH (S i) (acc ++ [y]) w1) as (ys & w2 & Hrun & Hlen & Hys).
    { intros k z Hz acc2 w2. specialize (Hf (S k) z Hz acc2 w2).
      by replace (S i + k) with (i + S k) by lia. }
    exists (y :: ys), w2. rewrite Hrun, <- app_assoc. split; [done|].
    split; [simpl; by rewrite Hlen|].
    intros [|k] z Hz; simpl in *.
    + injection Hz as <-. exists y. by rewrite Nat.add_0_r.
    + destruct (Hys k z Hz) as (y' & Hy' & HR'). exists y'. split; [done|].
      by replace (i + S k) with (S i + k) by lia.
Qed.

Lemma downloaded_file_as env file index pf w :
  nullish file = false ->
  exists f w', downloaded_file env file index pf w = (Normal (pf ++ [f]), w')
    /\ downloaded_as file f.
Proof.
  intros Hn. unfold downloaded_file, prop. rewrite Hn.
  eexists _, _. split; [reflexivity|]. by repeat split.
Qed.


(** Solves [m w = (Normal ?a, ?w')] by running [m] one bind at a time. *)
Ltac mrun :=
  first [ eassumption | reflexivity
        | (erewrite bind_run; cycle 1; [mrun | mrun]) ].

(** X3.  A successful [broll_finder] result whose [downloaded_files] is a
    non-empty array (without [null] entries) adds exactly one project file
    per entry, after the existing ones and in the order of the array; each
    takes [path] and [url] from its entry, [name], [type], [size] and
    [source] from it with the defaults ['B-roll Media'], ['image'], [0] and
    ['unknown'], and the URL (else the entry's thumbnail) as thumbnail.  Any
    [file_paths] in the same payload are ignored. *)
Theorem X3_downloaded_files env msg state w files :
  msg !!! "type" = VStr "tool_result" ->
  truthy (msg !!! "success") = true ->
  msg !!! "tool" = VStr "broll_finder" ->
  get (msg !!! "result") "downloaded_files" = VArr files ->
  files <> [] ->
  (forall file, file ∈ files -> nullish file = false) ->
  exists state' w' added,
    handleMessage env msg state w = (Normal state', w')
    /\ projectFiles state' = projectFiles state ++ added
    /\ length added = length files
    /\ forall k file, files !! k = Some file ->
         exists f, added !! k = Some f /\ downloaded_as file f.
Proof.
  intros Htype Hsucc Htool Hfiles Hne Hok.
  rewrite handleMessage_cases. cbv zeta. rewrite Htype.
  change (is_str (VStr "tool_result") "tool_call") with false.
  change (is_str (VStr "tool_result") "tool_result") with true. cbv iota.
  unfold on_tool_result. rewrite and_truthy, Hsucc, Htool.
  rewrite (truthy_arr_get _ _ _ Hfiles).
  change (is_str (VStr "broll_finder") "script_writer") with false.
  change (is_str (VStr "broll_finder") "broll_finder") with true.
  change (is_str (VStr "broll_finder") "voiceover_generator") with false.
  change (is_str (VStr "broll_finder") "video_processor") with false.
  rewrite !andb_false_l, !andb_true_l.
  rewrite (bind_run _ _ w (scripts state, projectFiles state) w eq_refl).
  unfold broll_finder. rewrite Hfiles.
  assert (Hlen : Nat.eqb (length files) 0 = false) by (by destruct files).
  change (get (VArr files) "length") with (num (length files)).
  rewrite gt_zero_num, is_zero_num, Hlen. simpl truthy. simpl negb.
  rewrite orb_false_r, andb_false_r, andb_true_l. unfold forEach.
  destruct (forEach_from_push (downloaded_file env) (fun _ => downloaded_as) files 0
              (projectFiles state) w) as (added & w1 & Hrun & Hl & Hadded).
  { intros k x Hx acc w0. apply downloaded_file_as, Hok, list_elem_of_lookup. eauto. }
  destruct (helpful_message_run env (get (msg !!! "result") "message") w1)
    as (note & Hnote & _).
  destruct (truthy (get (msg !!! "result") "message")) eqn:Hm.
  - eexists _, _, added. split; [mrun|]. by repeat split.
  - eexists _, _, added. split; [mrun|]. by repeat split.
Qed.

Lemma X3_downloaded_files_witness :
  exists state' w' added,
    handleMessage Samples.env Samples.broll_download initial Samples.w0
      = (Normal state', w')
    /\ projectFiles state' = projectFiles initial ++ added
    /\ length added = 1
    /\ forall k file,
         [VObj {[ "name" := VStr "a.jpg"; "type" := VStr "image";
                  "path" := VStr "/x/a.jpg"; "url" := VStr "http://h/a.jpg";
                  "size" := VNum 100 ]}] !! k = Some file ->
         exists f, added !! k = Some f /\ downloaded_as file f.
Proof.
  apply (X3_downloaded_files Samples.env Samples.broll_download initial Samples.w0
           [VObj {[ "name" := VStr "a.jpg"; "type" := VStr "image";
                    "path" := VStr "/x/a.jpg"; "url" := VStr "http://h/a.jpg";
                    "size" := VNum 100 ]}]);
    try reflexivity; try discriminate.
  intros file Hfile. apply list_elem_of_singleton in Hfile. by rewrite Hfile.
Defined.


(** ** [split], and the display URL built from a path *)

Lemma append_cons x (a b : string) : String x a +:+ b = String x (a +:+ b).
Proof. reflexivity. Qed.

Lemma append_assoc (a b c : string) : (a +:+ b) +:+ c = a +:+ (b +:+ c).
Proof. induction a as [|x a IH]; [done|]. rewrite !append_cons. by f_equal. Qed.

Lemma append_nil_r (a : string) : a +:+ "" = a.
Proof. induction a as [|x a IH]; [done|]. rewrite append_cons. by f_equal. Qed.

Lemma prefix_app (sep t : string) : String.prefix sep (sep +:+ t) = true.
Proof.
  induction sep as [|c sep IH]; [by destruct t|].
  rewrite append_cons. simpl. by destruct (Ascii.ascii_dec c c).
Qed.

Lemma prefix_cons_ne (c0 c : ascii) (sep' s : string) :
  c <> c0 -> String.prefix (String c0 sep') (String c s) = false.
Proof. intros H. simpl. by destruct (Ascii.ascii_dec c0 c). Qed.

Lemma prefix_drop (u s : string) :
  String.prefix u s = true -> u +:+ drop_units (String.length u) s = s.
Proof.
  revert s. induction u as [|c u IH]; intros s H; [done|].
  destruct s as [|c' s]; [done|]. simpl in H.
  destruct (Ascii.ascii_dec c c') as [->|]; [|done].
  rewrite append_cons. simpl. f_equal. by apply IH.
Qed.

Lemma lacks_cons c x s : lacks c (String x s) -> x <> c /\ lacks c s.
Proof.
  intros H. split.
  - intros ->. by apply (H 0).
  - intros k. apply (H (S k)).
Qed.

Section Split.
Variables (c0 : ascii) (sep' : string).
Let sep := String c0 sep'.

(** A stretch without the separator's first code unit is read into the
    current piece. *)
Lemma split_go_lacks dir t cur :
  lacks c0 dir ->
  Str.split_go sep (dir +:+ t) 0 cur = Str.split_go sep t 0 (cur +:+ dir).
Proof using Type.
  revert cur. induction dir as [|c dir IH]; intros cur H.
  - by rewrite append_nil_r.
  - apply lacks_cons in H as [Hc H]. rewrite append_cons.
    cbn [Str.split_go]. unfold sep at 1. rewrite (prefix_cons_ne _ _ _ _ Hc).
    rewrite (IH _ H), append_assoc. done.
Qed.

Lemma split_go_skip u t cur :
  Str.split_go sep (u +:+ t) (String.length u) cur = Str.split_go sep t 0 cur.
Proof using Type.
  induction u as [|c u IH]; [done|]. rewrite append_cons. simpl. apply IH.
Qed.

(** At an occurrence of the separator the current piece ends. *)
Lemma split_go_match t cur :
  Str.split_go sep (sep +:+ t) 0 cur = cur :: Str.split_go sep t 0 "".
Proof using Type.
  unfold sep at 2. rewrite append_cons. cbn [Str.split_go].
  change (String c0 (sep' +:+ t)) with (sep +:+ t). rewrite prefix_app.
  f_equal. unfold sep.
  replace (String.length (String c0 sep') - 1) with (String.length sep')
    by (simpl; lia).
  apply split_go_skip.
Qed.

(** The result is never empty, and its first piece extends the current
    one. *)
Lemma split_go_head t skip cur :
  exists x rest, Str.split_go sep t skip cur = (cur +:+ x) :: rest.
Proof using Type.
  revert skip cur. induction t as [|c t IH]; intros skip cur.
  - exists "", []. simpl. by rewrite append_nil_r.
  - cbn [Str.split_go]. destruct skip as [|k]; [|apply IH].
    destruct (String.prefix sep (String c t)).
    + eexists "", _. by rewrite append_nil_r.
    + destruct (IH 0 (cur +:+ String c "")) as (x & rest & ->).
      exists (String c x), rest. by rewrite append_assoc.
Qed.

Lemma concat_cons (x : string) (l : list string) :
  l <> [] -> String.concat sep (x :: l) = x +:+ sep +:+ String.concat sep l.
Proof using Type. by destruct l. Qed.

Lemma split_go_join s :
  forall skip cur,
  String.concat sep (Str.split_go sep s skip cur) = cur +:+ drop_units skip s.
Proof using Type.
  induction s as [|c s IH]; intros skip cur.
  - simpl. destruct skip; by rewrite append_nil_r.
  - cbn [Str.split_go]. destruct skip as [|k]; [|apply IH].
    destruct (String.prefix sep (String c s)) eqn:Hp.
    + rewrite concat_cons.
      2:{ destruct (split_go_head s (String.length sep - 1) "") as (x & rest & ->).
          done. }
      rewrite IH. change ("" +:+ ?x) with x.
      f_equal. simpl drop_units at 2. unfold sep in *.
      replace (String.length (String c0 sep') - 1) with (String.length sep')
        by (simpl; lia).
      apply prefix_drop in Hp. simpl in Hp. rewrite append_cons in Hp.
      injection Hp as -> Hp. rewrite <- Hp at 2. by rewrite append_cons.
    + rewrite IH, append_assoc. done.
Qed.

End Split.

(** X5.  [split] and [join] are inverse: joining the pieces that
    [s.split(sep)] returns with the same non-empty separator gives [s]
    back, so no code unit of the text is lost or invented by the split. *)
Theorem X5_split_join (sep s : string) :
  sep <> "" -> String.concat sep (Str.split sep s) = s.
Proof.
  intros H. destruct sep as [|c0 sep']; [done|].
  unfold Str.split. by rewrite split_go_join.
Qed.

Lemma X5_split_join_witness :
  String.concat "Projects/" (Str.split "Projects/" "/home/me/Projects/p1/broll/a.jpg")
  = "/home/me/Projects/p1/broll/a.jpg".
Proof. apply (X5_split_join "Projects/" "/home/me/Projects/p1/broll/a.jpg"). discriminate. Defined.

Lemma includes_prefix (sub s : string) :
  String.prefix sub s = true -> Str.includes sub s = true.
Proof. intros H. destruct s; cbn [Str.includes]; by rewrite H. Qed.

Lemma includes_app (sub a b : string) : Str.includes sub (a +:+ (sub +:+ b)) = true.
Proof.
  induction a as [|c a IH].
  - change ("" +:+ (sub +:+ b)) with (sub +:+ b). apply includes_prefix, prefix_app.
  - rewrite append_cons. cbn [Str.includes]. rewrite IH. apply orb_true_r.
Qed.

(** The project identifier is the path segment after the first
    ["Projects/"]. *)
Lemma projectId_found (dir id rest : string) :
  lacks capital_P dir -> lacks capital_P id -> lacks slash id -> id <> "" ->
  projectId_of (dir +:+ "Projects/" +:+ id +:+ "/" +:+ rest) = id.
Proof.
  intros Hdir HidP Hid Hne. unfold projectId_of.
  change "Projects/" with ("Projects" +:+ "/").
  rewrite (append_assoc "Projects" "/"), includes_app.
  change ("Projects" +:+ "/" +:+ id +:+ "/" +:+ rest)
    with ("Projects/" +:+ id +:+ "/" +:+ rest).
  unfold Str.split at 1.
  rewrite (split_go_lacks capital_P "rojects/" dir _ "" Hdir).
  rewrite (split_go_match capital_P "rojects/").
  rewrite (split_go_lacks capital_P "rojects/" id _ "" HidP).
  change ("/" +:+ rest) with (String slash rest).
  cbn [Str.split_go]. rewrite (prefix_cons_ne capital_P slash _ _ ltac:(discriminate)).
  destruct (split_go_head capital_P "rojects/" rest 0 (("" +:+ id) +:+ String slash ""))
    as (x & more & ->).
  simpl lookup. cbv iota beta.
  change (("" +:+ id) +:+ String slash "") with (id +:+ "/").
  rewrite append_assoc. unfold Str.split.
  rewrite (split_go_lacks slash "" id _ "" Hid).
  rewrite (split_go_match slash ""). simpl.
  change ("" +:+ id) with id.
  destruct (String.eqb_spec id ""); done.
Qed.

Lemma last_split_slash (name : string) :
  lacks slash name ->
  forall s cur, last (Str.split_go "/" (s +:+ "/" +:+ name) 0 cur) = Some name.
Proof.
  intros Hname. induction s as [|c s IH]; intros cur.
  - change ("" +:+ "/" +:+ name) with ("/" +:+ name).
    rewrite (split_go_match slash "").
    rewrite <- (append_nil_r name) at 1.
    rewrite (split_go_lacks slash "" name "" "" Hname).
    done.
  - rewrite append_cons. cbn [Str.split_go].
    destruct (String.prefix "/" (String c (s +:+ "/" +:+ name))).
    + change (String.length "/" - 1) with 0.
      destruct (split_go_head slash "" (s +:+ "/" +:+ name) 0 "") as (x & rest & Hx).
      specialize (IH ""). change (String slash "") with "/" in Hx.
      rewrite Hx in *. by rewrite last_cons_cons.
    + apply IH.
Qed.

(** The file name is the path segment after the last slash. *)
Lemma filename_found (dir name : string) :
  lacks slash name -> name <> "" ->
  filename_of (dir +:+ "/" +:+ name) = name.
Proof.
  intros Hname Hne. unfold filename_of, Str.pop, Str.split.
  rewrite (last_split_slash name Hname). simpl.
  destruct (String.eqb_spec name ""); done.
Qed.

(** X6.  The display URL synthesised for a bare path.  For a file stored
    as [<dir>Projects/<id>/broll/<name>], where [id] and [name] are
    non-empty segments without a slash and neither [dir] nor [id] contains
    a capital P, the URL is
    [http://127.0.0.1:8001/api/projects/<id>/broll/<name>].  A path that
    does not contain ["Projects"] at all is filed under the project
    ["default"]. *)
Theorem X6_display_url :
  (forall dir id name,
     lacks capital_P dir -> lacks capital_P id -> lacks slash id -> id <> "" ->
     lacks slash name -> name <> "" ->
     imageUrl_of (dir +:+ "Projects/" +:+ id +:+ "/broll/" +:+ name)
     = "http://127.0.0.1:8001/api/projects/" +:+ id +:+ "/broll/" +:+ name)
  /\ (forall p, Str.includes "Projects" p = false -> projectId_of p = "default").
Proof.
  split.
  - intros dir id name Hdir HidP Hid Hne Hname Hnn. unfold imageUrl_of.
    change ("/broll/" +:+ name) with ("/" +:+ "broll/" +:+ name).
    rewrite (projectId_found dir id ("broll/" +:+ name) Hdir HidP Hid Hne).
    replace (dir +:+ "Projects/" +:+ id +:+ "/" +:+ "broll/" +:+ name)
      with ((dir +:+ "Projects/" +:+ id +:+ "/broll") +:+ "/" +:+ name).
    + by rewrite (filename_found _ name Hname Hnn).
    + by rewrite !append_assoc.
  - intros p Hp. unfold projectId_of. by rewrite Hp.
Qed.

(** [lacks] can be checked by running over the string. *)
Lemma lacks_check (c : ascii) (s : string) :
  forallb (fun x => negb (Ascii.eqb x c)) (String.list_ascii_of_string s) = true ->
  lacks c s.
Proof.
  induction s as [|x s IH]; intros H k; [by destruct k|].
  simpl in H. apply andb_prop in H as [Hx Hs].
  destruct k as [|k]; simpl.
  - intros [= ->]. by rewrite Ascii.eqb_refl in Hx.
  - by apply IH.
Qed.

Ltac lacks_units := apply lacks_check; reflexivity.

Lemma X6_display_url_witness :
  imageUrl_of ("/home/me/" +:+ "Projects/" +:+ "p1" +:+ "/broll/" +:+ "a.jpg")
  = "http://127.0.0.1:8001/api/projects/" +:+ "p1" +:+ "/broll/" +:+ "a.jpg"
  /\ projectId_of "/tmp/a.jpg" = "default".
Proof.
  destruct X6_display_url as [Hurl Hdefault]. split.
  - apply (Hurl "/home/me/" "p1" "a.jpg"); try discriminate; lacks_units.
  - apply (Hdefault "/tmp/a.jpg"). reflexivity.
Defined.


(** ** User context *)

(** X7.  An [adaptive] or [context_update] message whose [preferences]
    is an object merges it into the stored preferences key by key: every
    key of the message takes the message's value, every other stored key
    keeps its value, and [style], [tone] and [length] are untouched.  Falsy
    [preferences] leave the user context as it was.  So two such messages
    with different keys leave the union of their keys in the store. *)
Theorem X7_preferences_shallow_merge env msg state w :
  msg !!! "type" = VStr "adaptive" \/ msg !!! "type" = VStr "context_update" ->
  exists state',
    handleMessage env msg state w = (Normal state', w)
    /\ UserContext.style (userContext state') = UserContext.style (userContext state)
    /\ UserContext.tone (userContext state') = UserContext.tone (userContext state)
    /\ UserContext.length (userContext state') = UserContext.length (userContext state)
    /\ (truthy (msg !!! "preferences") = false -> userContext state' = userContext state)
    /\ (forall p, msg !!! "preferences" = VObj p ->
          exists merged,
            UserContext.preferences (userContext state') = VObj merged
            /\ forall k,
                 merged !! k =
                   match p !! k with
                   | Some v => Some v
                   | None => spread (UserContext.preferences (userContext state)) !! k
                   end).
Proof.
  intros Htype. rewrite handleMessage_cases. cbv zeta.
  assert (Hrun : handleMessage env msg state w
                 = (Normal (on_preferences state msg (log_update (messages state) msg)), w)).
  { rewrite handleMessage_cases. cbv zeta. by destruct Htype as [-> | ->]. }
  rewrite handleMessage_cases in Hrun. cbv zeta in Hrun. rewrite Hrun.
  eexists. split; [reflexivity|]. unfold on_preferences. simpl.
  destruct (truthy (msg !!! "preferences")) eqn:Hp; simpl.
  - repeat (split; [done|]). intros p Hobj. rewrite Hobj. simpl.
    eexists. split; [reflexivity|]. intros k. apply merge_lookup.
  - repeat (split; [done|]). intros p Hobj. by rewrite Hobj in Hp.
Qed.

Lemma X7_preferences_shallow_merge_witness :
  let after :=
    fst (dispatch_all Samples.env [Samples.casual; Samples.brisk]
           (initial, Samples.w0)) in
  (exists state',
     handleMessage Samples.env Samples.casual initial Samples.w0
       = (Normal state', Samples.w0)
     /\ UserContext.style (userContext state') = UserContext.style (userContext initial)
     /\ UserContext.tone (userContext state') = UserContext.tone (userContext initial)
     /\ UserContext.length (userContext state')
        = UserContext.length (userContext initial)
     /\ (truthy (Samples.casual !!! "preferences") = false ->
         userContext state' = userContext initial)
     /\ (forall p, Samples.casual !!! "preferences" = VObj p ->
           exists merged,
             UserContext.preferences (userContext state') = VObj merged
             /\ forall k,
                  merged !! k =
                    match p !! k with
                    | Some v => Some v
                    | None =>
                        spread (UserContext.preferences (userContext initial)) !! k
                    end))
  /\ UserContext.preferences (userContext after)
     = VObj {[ "tone" := VStr "casual"; "pace" := VStr "fast" ]}.
Proof.
  cbv zeta. split.
  - apply (X7_preferences_shallow_merge Samples.env Samples.casual initial
             Samples.w0).
    by left.
  - by vm_compute.
Defined.

(** ** Frames that cannot be handled *)

(** X8.  [ws.onmessage] fails open.  Whatever the frame, the sockets, the
    refs, the timers, the React state and the outbound data are untouched,
    so the connection stays as it is.  A frame that does not parse, or one
    on which [handleMessage] throws, only sets the store's error to
    ["Failed to parse WebSocket message"]: the log and every collection
    keep their value and the optional callback is not called.  A frame that
    is handled installs the new store state and is then passed to the
    callback, if there is one. *)
Theorem X8_onmessage_fails_open env f h :
  let h' := Connection.onmessage env f h in
  (Connection.sockets h' = Connection.sockets h
   /\ Connection.wsRef h' = Connection.wsRef h
   /\ Connection.reconnectRef h' = Connection.reconnectRef h
   /\ Connection.timeouts h' = Connection.timeouts h
   /\ Connection.connected h' = Connection.connected h
   /\ Connection.sent h' = Connection.sent h)
  /\ match f with
     | Connection.Malformed =>
         Connection.store h'
         = setError (VStr "Failed to parse WebSocket message") (Connection.store h)
         /\ Connection.delivered h' = Connection.delivered h
     | Connection.Decoded data =>
         match handleMessage env data (Connection.store h) (Connection.world h) with
         | (Normal state', _) =>
             Connection.store h' = state'
             /\ Connection.delivered h' =
                  (if Connection.onMessageRef h then Connection.delivered h ++ [data]
                   else Connection.delivered h)
         | (Throw _, _) =>
             Connection.store h'
             = setError (VStr "Failed to parse WebSocket message") (Connection.store h)
             /\ Connection.delivered h' = Connection.delivered h
         end
     end.
Proof.
  cbv zeta. unfold Connection.onmessage. destruct f as [|data]; [by repeat split|].
  destruct (handleMessage env data (Connection.store h) (Connection.world h))
    as [[state'|e] w'].
  - simpl. destruct (Connection.onMessageRef h); by repeat split.
  - by repeat split.
Qed.

(** A decoded frame on which the reducer throws: the script text of a
    [script_created] update is a number. *)
Lemma bad_update_throws :
  let h' := Connection.onmessage Samples.env (Connection.Decoded Samples.bad_update)
              Samples.opened in
  fst (handleMessage Samples.env Samples.bad_update initial Samples.w0) = Throw TypeError
  /\ error (Connection.store h') = VStr "Failed to parse WebSocket message"
  /\ messages (Connection.store h') = [].
Proof. cbv zeta. split; [reflexivity|]. split; reflexivity. Qed.

(** ** The connection manager as a transition system *)

Lemma quiet_single h : quiet h -> single_live h.
Proof. intros Hq i s Hs Hl. rewrite (Hq i s Hs) in Hl. done. Qed.

Lemma single_live_ext h h' :
  Connection.sockets h' = Connection.sockets h ->
  Connection.wsRef h' = Connection.wsRef h ->
  single_live h -> single_live h'.
Proof. unfold single_live. intros -> ->. done. Qed.

Lemma close_socket_quiet ws h :
  single_live h -> Connection.wsRef h = Some ws ->
  quiet (Connection.close_socket ws h).
Proof.
  intros Hinv Href i s. unfold Connection.close_socket. simpl.
  rewrite list_lookup_alter. destruct (decide (ws = i)) as [->|Hne].
  - destruct (Connection.sockets h !! i) as [s0|]; simpl; [|done].
    intros [= <-]. destruct s0 as [u r]. by destruct r.
  - intros Hs. destruct (live s) eqn:Hl; [|done].
    specialize (Hinv i s Hs Hl). congruence.
Qed.

Lemma open_socket_single wsUrl h :
  quiet h -> single_live (Connection.open_socket wsUrl h).
Proof.
  intros Hq i s. unfold Connection.open_socket. simpl.
  intros Hs Hl. apply lookup_app_Some in Hs as [Hs | [Hlen Hs]].
  - by rewrite (Hq i s Hs) in Hl.
  - f_equal. apply list_lookup_singleton_Some in Hs as [Hi _]. lia.
Qed.

Lemma none_quiet h : single_live h -> Connection.wsRef h = None -> quiet h.
Proof.
  intros Hinv Href i s Hs. destruct (live s) eqn:Hl; [|done].
  specialize (Hinv i s Hs Hl). congruence.
Qed.

Lemma connect_single wsUrl h : single_live h -> single_live (Connection.connect wsUrl h).
Proof.
  intros Hinv. unfold Connection.connect.
  destruct (String.eqb (Connection.sessionIdRef h) ""); [done|].
  destruct (Connection.wsRef h) as [ws|] eqn:Href.
  - destruct (Connection.readyState_of h ws) as [[]|]; try done;
      by apply open_socket_single, close_socket_quiet.
  - by apply open_socket_single, none_quiet.
Qed.

Lemma release_quiet h :
  single_live h ->
  quiet (Connection.release h) /\ Connection.wsRef (Connection.release h) = None
  /\ Connection.reconnectRef (Connection.release h) = None.
Proof.
  intros Hinv. unfold Connection.release.
  destruct (Connection.wsRef h) as [ws|] eqn:Href.
  - pose proof (close_socket_quiet ws h Hinv Href) as Hq.
    destruct (Connection.reconnectRef _) eqn:Hr; simpl in *; rewrite ?Hr; by repeat split.
  - pose proof (none_quiet h Hinv Href) as Hq.
    destruct (Connection.reconnectRef h) eqn:Hr; simpl; by repeat split.
Qed.

Lemma set_readyState_single ws r h :
  single_live h ->
  (live {| Connection.url := ""; Connection.readyState := r |} = true ->
   Connection.wsRef h = Some ws) ->
  single_live (Connection.set_readyState ws r h).
Proof.
  intros Hinv Hr i s. unfold Connection.set_readyState. simpl.
  rewrite list_lookup_alter. destruct (decide (ws = i)) as [->|Hne].
  - destruct (Connection.sockets h !! i) as [s0|]; simpl; [|done].
    intros [= <-] Hl. apply Hr. by destruct r.
  - apply Hinv.
Qed.

Lemma step_single env ev h h' :
  single_live h -> Connection.step env ev h = Some h' -> single_live h'.
Proof.
  intros Hinv. destruct ev as [ws|ws code|ws|ws f|id|url sid|]; simpl.
  - destruct (Connection.sockets h !! ws) as [[u []]|] eqn:Hs; try discriminate.
    intros [= <-].
    apply (single_live_ext (Connection.set_readyState ws Connection.OPEN h)); [done|done|].
    apply set_readyState_single; [done|]. intros _. by apply (Hinv ws _ Hs).
  - destruct (Connection.sockets h !! ws) as [[u r]|] eqn:Hs; [|discriminate].
    assert (Hgoal : single_live
              (Connection.onclose u code (Connection.set_readyState ws Connection.CLOSED h))).
    { apply (single_live_ext (Connection.set_readyState ws Connection.CLOSED h)).
      - unfold Connection.onclose. by destruct (_ && _).
      - unfold Connection.onclose. by destruct (_ && _).
      - by apply set_readyState_single. }
    destruct r; intros [= <-]; exact Hgoal.
  - destruct (Connection.sockets h !! ws) as [[u []]|]; try discriminate;
      intros [= <-]; by apply (single_live_ext h).
  - assert (Hgoal : single_live (Connection.onmessage env f h)).
    { apply (single_live_ext h); [| |done]; unfold Connection.onmessage;
        destruct f; try done;
        destruct (handleMessage _ _ _ _) as [[?|?] ?]; try done; simpl;
        by destruct (Connection.onMessageRef h). }
    destruct (Connection.sockets h !! ws) as [[u []]|]; try discriminate;
      intros [= <-]; exact Hgoal.
  - destruct (List.find _ _) as [t|]; [|discriminate]. intros [= <-].
    apply connect_single. by apply (single_live_ext h).
  - intros [= <-]. unfold Connection.rerender, Connection.effect.
    set (h1 := Connection.with_sessionIdRef sid h).
    assert (H1 : single_live h1) by (by apply (single_live_ext h)).
    set (h2 := if String.eqb (Connection.sessionIdRef h) "" then h1 else Connection.release h1).
    assert (H2 : single_live h2).
    { unfold h2. destruct (String.eqb _ ""); [done|].
      apply quiet_single. by apply release_quiet. }
    destruct (String.eqb sid "").
    + apply (single_live_ext (Connection.release h2)); [done|done|].
      apply quiet_single. by apply release_quiet.
    + by apply connect_single.
  - intros [= <-]. unfold Connection.unmount.
    destruct (String.eqb _ ""); [done|]. apply quiet_single. by apply release_quiet.
Qed.

Lemma live_count h : single_live h -> length (List.filter live (Connection.sockets h)) <= 1.
Proof.
  intros Hinv.
  destruct (List.filter live (Connection.sockets h)) as [|a l] eqn:Hf; [simpl; lia|].
  assert (Ha : In a (List.filter live (Connection.sockets h))) by (rewrite Hf; by left).
  apply filter_In in Ha as [Hin Hl].
  apply list_elem_of_In, list_elem_of_lookup in Hin as [i Hi].
  rewrite <- Hf. rewrite (one_live _ i a Hi Hl); [lia|].
  intros j s' Hj Hl'. pose proof (Hinv i a Hi Hl). pose proof (Hinv j s' Hj Hl'). congruence.
Qed.

(** X9.  At most one live transport.  In every state the hook reaches
    from its first render, through any sequence of browser events, timer
    firings, renders with other props and unmounts, the only socket that
    can be connecting or open is the one held in [wsRef]; so at most one
    socket is live at any time. *)
Theorem X9_single_live_transport env evs onMessage state w h :
  Connection.run env evs (Connection.unmounted onMessage state w) = Some h ->
  single_live h /\ length (List.filter live (Connection.sockets h)) <= 1.
Proof.
  intros Hrun.
  assert (Hinv : single_live h).
  { assert (H0 : single_live (Connection.unmounted onMessage state w)).
    { intros i s Hs. done. }
    revert Hrun H0. generalize (Connection.unmounted onMessage state w).
    induction evs as [|ev evs IH]; intros h0 Hrun H0; simpl in Hrun.
    - by injection Hrun as <-.
    - destruct (Connection.step env ev h0) as [h1|] eqn:Hstep; [|discriminate].
      apply (IH h1 Hrun). by apply (step_single env ev h0). }
  split; [done | by apply live_count].
Qed.

Lemma X9_single_live_transport_witness :
  Connection.run Samples.env
    [Connection.EvRender None "s1"; Connection.EvOpen 0; Connection.EvClose 0 1006;
     Connection.EvTimeout 1]
    (Connection.unmounted false initial Samples.w0) = Some Samples.reconnecting_again
  /\ single_live Samples.reconnecting_again
  /\ length (List.filter live (Connection.sockets Samples.reconnecting_again)) <= 1.
Proof.
  split; [vm_compute; reflexivity|].
  apply (X9_single_live_transport Samples.env
           [Connection.EvRender None "s1"; Connection.EvOpen 0;
            Connection.EvClose 0 1006; Connection.EvTimeout 1]
           false initial Samples.w0 Samples.reconnecting_again).
  vm_compute. reflexivity.
Defined.

Lemma release_frame h :
  Connection.timeouts (Connection.release h) =
    match Connection.reconnectRef h with
    | Some id =>
        List.filter (fun t => negb (Pos.eqb (Connection.handle t) id))
          (Connection.timeouts h)
    | None => Connection.timeouts h
    end
  /\ Connection.sessionIdRef (Connection.release h) = Connection.sessionIdRef h
  /\ Connection.connected (Connection.release h) = Connection.connected h
  /\ Connection.store (Connection.release h) = Connection.store h.
Proof.
  unfold Connection.release.
  destruct (Connection.wsRef h); simpl; destruct (Connection.reconnectRef h); done.
Qed.

Lemma onclose_no_session u code h :
  Connection.sessionIdRef h = "" ->
  Connection.timeouts (Connection.onclose u code h) = Connection.timeouts h.
Proof.
  intros Hs. unfold Connection.onclose. cbv zeta.
  change (Connection.sessionIdRef
            (Connection.setStatus disconnected (Connection.with_connected false h)))
    with (Connection.sessionIdRef h).
  rewrite Hs. change (String.eqb "" "") with true.
  by rewrite andb_false_r.
Qed.

(** X10.  Teardown.  When the caller clears the session identifier, the
    render and its effect leave the hook without a socket in [wsRef] and
    without a live socket at all, clear [reconnectRef], and set [connected]
    to false and the connection status to [disconnected].  Of the pending
    timeouts exactly the one whose handle was in [reconnectRef] is
    cancelled; one scheduled earlier, whose handle a later close event
    overwrote in the ref, stays pending.  After the teardown a close event,
    whatever its code, schedules no reconnect, and a leftover timeout that
    fires opens no socket: [connect] returns at once. *)
Theorem X10_teardown env url h :
  single_live h ->
  let h' := Connection.rerender url "" h in
  Connection.sessionIdRef h' = ""
  /\ Connection.wsRef h' = None
  /\ Connection.reconnectRef h' = None
  /\ Connection.connected h' = false
  /\ connectionStatus (Connection.store h') = disconnected
  /\ quiet h'
  /\ Connection.timeouts h' =
       match Connection.reconnectRef h with
       | Some id =>
           List.filter (fun t => negb (Pos.eqb (Connection.handle t) id))
             (Connection.timeouts h)
       | None => Connection.timeouts h
       end
  /\ (forall u code,
        Connection.timeouts (Connection.onclose u code h') = Connection.timeouts h')
  /\ (forall id h'',
        Connection.step env (Connection.EvTimeout id) h' = Some h'' ->
        Connection.sockets h'' = Connection.sockets h'
        /\ Connection.wsRef h'' = None).
Proof.
  intros Hinv. cbv zeta. unfold Connection.rerender, Connection.effect.
  rewrite String.eqb_refl.
  set (h1 := Connection.with_sessionIdRef "" h).
  assert (H1 : single_live h1) by (by apply (single_live_ext h)).
  set (h2 := if String.eqb (Connection.sessionIdRef h) "" then h1
             else Connection.release h1).
  assert (H2 : single_live h2).
  { unfold h2. destruct (String.eqb _ ""); [done|].
    apply quiet_single. by apply release_quiet. }
  assert (Hsession : Connection.sessionIdRef h2 = "").
  { unfold h2. destruct (String.eqb _ ""); [done|].
    by destruct (release_frame h1) as (_ & -> & _). }
  destruct (release_quiet h2 H2) as (Hq & Hws & Hre).
  destruct (release_frame h2) as (Ht & Hs & _ & _).
  assert (Htimers : Connection.timeouts (Connection.release h2) =
            match Connection.reconnectRef h with
            | Some id =>
                List.filter (fun t => negb (Pos.eqb (Connection.handle t) id))
                  (Connection.timeouts h)
            | None => Connection.timeouts h
            end).
  { rewrite Ht. unfold h2.
    destruct (String.eqb (Connection.sessionIdRef h) ""); [done|].
    destruct (release_quiet h1 H1) as (_ & _ & ->).
    by destruct (release_frame h1) as (-> & _). }
  simpl. rewrite Hs, Hsession. do 7 (split; [done|]). split.
  - intros u code. rewrite onclose_no_session; [done|]. simpl. by rewrite Hs.
  - intros id h'' Hstep. unfold Connection.step in Hstep.
    destruct (List.find _ _) as [t|]; [|done]. injection Hstep as <-.
    unfold Connection.connect. simpl. rewrite Hs, Hsession. by simpl.
Qed.

Lemma X10_teardown_witness :
  let h' := Connection.rerender None "" Samples.both_dropped in
  Connection.timeouts Samples.both_dropped
  = [{| Connection.handle := 1; Connection.delay := 2000;
        Connection.target := "ws://localhost:8001/api/stream/s1" |};
     {| Connection.handle := 2; Connection.delay := 2000;
        Connection.target := "ws://localhost:8001/api/stream/s2" |}]
  /\ Connection.reconnectRef Samples.both_dropped = Some 2%positive
  /\ Connection.sessionIdRef h' = ""
  /\ Connection.wsRef h' = None
  /\ Connection.reconnectRef h' = None
  /\ Connection.connected h' = false
  /\ connectionStatus (Connection.store h') = disconnected
  /\ quiet h'
  /\ Connection.timeouts h'
     = [{| Connection.handle := 1; Connection.delay := 2000;
           Connection.target := "ws://localhost:8001/api/stream/s1" |}]
  /\ (forall u code,
        Connection.timeouts (Connection.onclose u code h') = Connection.timeouts h')
  /\ (forall id h'',
        Connection.step Samples.env (Connection.EvTimeout id) h' = Some h'' ->
        Connection.sockets h'' = Connection.sockets h'
        /\ Connection.wsRef h'' = None).
Proof.
  cbv zeta. split; [reflexivity|]. split; [reflexivity|].
  apply (X10_teardown Samples.env None Samples.both_dropped).
  intros i s Hs Hl.
  destruct i as [|[|i]]; vm_compute in Hs; [| |discriminate];
    injection Hs as <-; discriminate.
Defined.

(** ** A reconnect scheduled by a socket of the previous session *)

(** X11.  The reconnect timeout calls the [connect] closure of the render
    that built the closing socket, so it carries that render's [wsUrl].
    After a switch from session [s1] to [s2] while the socket of [s1] is
    open, a close event of the old socket with a code other than 1000
    finds [sessionIdRef] non-empty and schedules that closure.  If the
    timeout fires while the socket of [s2] is still connecting, [connect]
    closes it and opens a socket to the URL of [s1]: [wsRef] then holds a
    socket of session [s1] while [sessionIdRef] holds [s2]. *)
Theorem X11_reconnect_uses_stale_url env code :
  code <> 1000%Z ->
  exists h,
    Connection.run env
      [Connection.EvClose 0 code; Connection.EvTimeout 1] Samples.switched = Some h
    /\ Connection.sessionIdRef h = "s2"
    /\ Connection.wsRef h = Some 2
    /\ Connection.sockets h !! 2
       = Some {| Connection.url := "ws://localhost:8001/api/stream/s1";
                 Connection.readyState := Connection.CONNECTING |}
    /\ Connection.sockets h !! 1
       = Some {| Connection.url := "ws://localhost:8001/api/stream/s2";
                 Connection.readyState := Connection.CLOSING |}.
Proof.
  intros Hcode. eexists. split.
  - cbn [Connection.run Connection.step]. 
    change (Connection.sockets Samples.switched !! 0)
      with (Some {| Connection.url := "ws://localhost:8001/api/stream/s1";
                    Connection.readyState := Connection.CLOSING |}).
    cbv iota beta. unfold Connection.onclose. cbv zeta.
    destruct (Z.eqb_spec code 1000); [done|].
    vm_compute. reflexivity.
  - vm_compute. repeat split.
Qed.

Lemma X11_reconnect_uses_stale_url_witness :
  exists h,
    Connection.run Samples.env
      [Connection.EvClose 0 1005; Connection.EvTimeout 1] Samples.switched = Some h
    /\ Connection.sessionIdRef h = "s2"
    /\ Connection.wsRef h = Some 2
    /\ Connection.sockets h !! 2
       = Some {| Connection.url := "ws://localhost:8001/api/stream/s1";
                 Connection.readyState := Connection.CONNECTING |}
    /\ Connection.sockets h !! 1
       = Some {| Connection.url := "ws://localhost:8001/api/stream/s2";
                 Connection.readyState := Connection.CLOSING |}.
Proof. apply (X11_reconnect_uses_stale_url Samples.env 1005). discriminate. Defined.

(** ** Outbound data *)

(** X12.  [sendMessage] does not queue.  With no socket in [wsRef], or
    while [connected] is false, the call does nothing, so the payload is
    lost.  A call that returns either changes nothing or hands the payload
    to the open socket in [wsRef], after the earlier payloads.  A call can
    also throw: right after a switch of session, [connected] is still true
    and [wsRef] already holds the socket of the new session, which is still
    connecting, and [send] on it raises [InvalidStateError]. *)
Theorem X12_sendMessage_no_queue msg h :
  (Connection.connected h = false \/ Connection.wsRef h = None ->
   Connection.sendMessage msg h = Normal h)
  /\ (forall h', Connection.sendMessage msg h = Normal h' ->
        h' = h
        \/ exists ws,
             Connection.wsRef h = Some ws
             /\ Connection.readyState_of h ws = Some Connection.OPEN
             /\ Connection.sent h' = Connection.sent h ++ [(ws, msg)])
  /\ (Connection.run Samples.env
        [Connection.EvRender None "s1"; Connection.EvOpen 0;
         Connection.EvRender None "s2"]
        (Connection.unmounted false initial Samples.w0) = Some Samples.switched
      /\ Connection.sendMessage msg Samples.switched = Throw InvalidStateError).
Proof.
  unfold Connection.sendMessage. split; [|split].
  - intros [Hc | Hws].
    + rewrite Hc. by destruct (Connection.wsRef h).
    + by rewrite Hws.
  - intros h' H. destruct (Connection.wsRef h) as [ws|]; [|left; congruence].
    destruct (Connection.connected h); [|left; congruence].
    destruct (Connection.readyState_of h ws) as [[| | |]|] eqn:Hr;
      try discriminate; try (left; congruence).
    right. exists ws. injection H as <-. by repeat split.
  - split; vm_compute; reflexivity.
Qed.
(** * Further properties of the presentation adapter *)

Lemma deps_changed_refl a : Streaming.deps_changed a a = false.
Proof. unfold Streaming.deps_changed. by rewrite !Bool.eqb_reflx. Qed.

Lemma message_effect_settled m speed a :
  Streaming.deps_changed (Streaming.message_effect m speed a)
    (Streaming.message_effect m speed (Streaming.message_effect m speed a)) = false.
Proof.
  unfold Streaming.message_effect, Streaming.startStreaming.
  destruct (String.eqb (Streaming.type m) "ai_message"); simpl; [|done].
  destruct (String.eqb_spec (Streaming.fullText m) "") as [Ht|Ht]; simpl;
    [apply deps_changed_refl|].
  destruct (Streaming.is_partial m); [done|].
  destruct (Streaming.is_complete m); [done|].
  destruct (Streaming.isStreaming a) eqn:Hs; simpl;
    [rewrite Hs; apply deps_changed_refl|].
  destruct (Streaming.isComplete a) eqn:Hc; simpl;
    [rewrite Hs, Hc; apply deps_changed_refl|].
  done.
Qed.

(** X13.  The message effect settles.  A second run of the effect, with
    the props unchanged, leaves [isStreaming] and [isComplete] as the first
    run set them, so React runs it at most twice in a row; and after the
    first render and its effects a further run would change neither. *)
Theorem X13_effect_settles m speed a :
  Streaming.deps_changed (Streaming.message_effect m speed a)
    (Streaming.message_effect m speed (Streaming.message_effect m speed a)) = false
  /\ Streaming.deps_changed (Streaming.mount m speed)
       (Streaming.message_effect m speed (Streaming.mount m speed)) = false.
Proof.
  split; [apply message_effect_settled|]. unfold Streaming.mount.
  destruct (Streaming.deps_changed Streaming.initial _); apply message_effect_settled.
Qed.

(** X14.  A message that arrives complete is announced twice.  For an
    [ai_message] with text, [is_complete] set and [is_partial] not set, the
    effect of the first render shows the full text and calls [onComplete];
    it has changed [isComplete], so it runs once more and calls
    [onComplete] again.  The adapter ends complete, with the full text, no
    cursor and no timer, and two calls of [onComplete]. *)
Theorem X14_complete_message_notifies_twice m speed :
  Streaming.type m = "ai_message" ->
  Streaming.fullText m <> "" ->
  Streaming.is_partial m = false ->
  Streaming.is_complete m = true ->
  Streaming.mount m speed
  = {| Streaming.displayedText := Streaming.fullText m;
       Streaming.isStreaming := false;
       Streaming.showCursor := false;
       Streaming.isComplete := true;
       Streaming.streamIntervalRef := None;
       Streaming.intervals := [];
       Streaming.next_id := 1%positive;
       Streaming.completions := 2 |}.
Proof.
  intros Hty Htext Hp Hc. unfold Streaming.mount, Streaming.message_effect.
  rewrite Hty, Hp, Hc.
  destruct (String.eqb_spec (Streaming.fullText m) ""); [done|]. reflexivity.
Qed.

Lemma X14_complete_message_notifies_twice_witness :
  Streaming.completions (Streaming.mount Samples.final 15) = 2
  /\ Streaming.mount Samples.final 15
     = {| Streaming.displayedText := Streaming.fullText Samples.final;
          Streaming.isStreaming := false;
          Streaming.showCursor := false;
          Streaming.isComplete := true;
          Streaming.streamIntervalRef := None;
          Streaming.intervals := [];
          Streaming.next_id := 1%positive;
          Streaming.completions := 2 |}.
Proof.
  split; [reflexivity|].
  apply (X14_complete_message_notifies_twice Samples.final 15);
    [reflexivity | discriminate | reflexivity | reflexivity].
Defined.

(** X15.  The skip does not hold while the message is partial.  For an
    [ai_message] with text and [is_partial] set, [stopStreaming] marks the
    adapter complete, which changes the effect's dependencies; the effect
    then runs for the same message and puts the adapter back to streaming
    with the cursor shown and [isComplete] false.  After the first render
    a skip leaves the adapter exactly as it was. *)
Theorem X15_skip_undone_while_partial m speed a :
  Streaming.type m = "ai_message" ->
  Streaming.fullText m <> "" ->
  Streaming.is_partial m = true ->
  Streaming.isStreaming a = true \/ Streaming.isComplete a = false ->
  Streaming.skip m speed a
  = Streaming.show (Streaming.fullText m) true true false (Streaming.clear_ref a)
  /\ Streaming.skip m speed (Streaming.mount m speed) = Streaming.mount m speed.
Proof.
  intros Hty Htext Hp Ha.
  assert (Hskip : forall b,
            Streaming.isStreaming b = true \/ Streaming.isComplete b = false ->
            Streaming.skip m speed b
            = Streaming.show (Streaming.fullText m) true true false
                (Streaming.clear_ref b)).
  { intros b Hb. unfold Streaming.skip, Streaming.stopStreaming, Streaming.settle.
    assert (Hd : Streaming.deps_changed b
                   (Streaming.show (Streaming.fullText m) false false true
                      (Streaming.clear_ref b)) = true).
    { unfold Streaming.deps_changed. simpl. destruct Hb as [-> | ->]; [done|].
      by rewrite orb_true_r. }
    rewrite Hd. unfold Streaming.message_effect. rewrite Hty, Hp.
    destruct (String.eqb_spec (Streaming.fullText m) ""); [done|]. reflexivity. }
  split; [by apply Hskip|].
  assert (Hm : Streaming.mount m speed
               = Streaming.show (Streaming.fullText m) true true false Streaming.initial).
  { unfold Streaming.mount, Streaming.message_effect. rewrite Hty, Hp.
    destruct (String.eqb_spec (Streaming.fullText m) ""); [done|]. reflexivity. }
  rewrite Hskip; [|left; by rewrite Hm]. by rewrite Hm.
Qed.

Lemma X15_skip_undone_while_partial_witness :
  Streaming.skip Samples.typing 15 (Streaming.mount Samples.typing 15)
  = Streaming.show (Streaming.fullText Samples.typing) true true false
      (Streaming.clear_ref (Streaming.mount Samples.typing 15))
  /\ Streaming.skip Samples.typing 15 (Streaming.mount Samples.typing 15)
     = Streaming.mount Samples.typing 15.
Proof.
  apply (X15_skip_undone_while_partial Samples.typing 15
           (Streaming.mount Samples.typing 15));
    [reflexivity | discriminate | reflexivity | left; reflexivity].
Defined.

(** * The script panel over the store *)

Lemma has_script_result msg t :
  msg !!! "tool" = VStr "script_writer" ->
  get (msg !!! "result") "script_text" = VStr t ->
  t <> "" ->
  ScriptTab.has_script (toolResult_of msg) = true
  /\ get (ToolResult.result (toolResult_of msg)) "script_text" = VStr t.
Proof.
  intros Htool Htext Ht. apply truthy_str in Ht.
  assert (Hres : truthy (msg !!! "result") = true).
  { apply (truthy_get_truthy _ "script_text"). by rewrite Htext. }
  unfold ScriptTab.has_script, toolResult_of. simpl. rewrite Htool.
  assert (Hor : or (msg !!! "result") (VObj ∅) = msg !!! "result")
    by (unfold or; by rewrite Hres).
  rewrite Hor, Htext, Ht. done.
Qed.

(** X16.  The script panel shows a tool result's script at once.  After a
    successful [script_writer] tool result whose [script_text] is a
    non-empty string, the selector of [ScriptTab] returns exactly that text,
    whatever tool results and scripts the store held before. *)
Theorem X16_script_panel_shows_result env msg state w t :
  msg !!! "type" = VStr "tool_result" ->
  truthy (msg !!! "success") = true ->
  msg !!! "tool" = VStr "script_writer" ->
  get (msg !!! "result") "script_text" = VStr t ->
  t <> "" ->
  exists state',
    handleMessage env msg state w = (Normal state', two_reads w)
    /\ ScriptTab.script state' = Normal (VStr t).
Proof.
  intros Htype Hsucc Htool Htext Ht.
  destruct (script_writer_result env msg state w Htype Hsucc Htool) as (state' & s & Hrun & _).
  { rewrite Htext. by apply truthy_str. }
  exists state'. split; [done|].
  apply handleMessage_frame in Hrun. cbv zeta in Hrun.
  destruct Hrun as (_ & _ & Hres & _). rewrite Htype in Hres.
  change (is_str (VStr "tool_result") "tool_result") with true in Hres.
  destruct (has_script_result msg t Htool Htext Ht) as (Hhas & Hget).
  unfold ScriptTab.script, ScriptTab.scriptResult.
  rewrite Hres, rev_unit. simpl. rewrite Hhas, Hget.
  apply truthy_str in Ht. by rewrite Ht.
Qed.

Lemma X16_script_panel_shows_result_witness :
  exists state',
    handleMessage Samples.env Samples.script_result Samples.seeded Samples.w0
    = (Normal state', two_reads Samples.w0)
    /\ ScriptTab.script state' = Normal (VStr "INT. STUDIO").
Proof.
  apply (X16_script_panel_shows_result Samples.env Samples.script_result
           Samples.seeded Samples.w0 "INT. STUDIO");
    [reflexivity | reflexivity | reflexivity | reflexivity | discriminate].
Defined.

(** X17.  A script sent as a GUI update is shadowed by tool results.  A
    [script_created] update with a non-empty string adds the script to
    [scripts] but not to [toolResults].  If some stored tool result holds a
    script, the selector of [ScriptTab] keeps returning what it returned
    before the update; only when none does is the new text returned. *)
Theorem X17_script_update_shadowed env msg state w t :
  msg !!! "type" = VStr "gui_update" ->
  msg !!! "update_type" = VStr "script_created" ->
  get (msg !!! "data") "script_content" = VStr t ->
  t <> "" ->
  exists state',
    handleMessage env msg state w = (Normal state', two_reads w)
    /\ ScriptTab.script state' =
         match ScriptTab.scriptResult state with
         | Some _ => ScriptTab.script state
         | None => Normal (VStr t)
         end.
Proof.
  intros Htype Hupdate Hcontent Ht.
  destruct (script_created_update env msg state w t Htype Hupdate Hcontent Ht)
    as (state' & s & Hrun & Hscripts & Hc & _).
  exists state'. split; [done|].
  apply handleMessage_frame in Hrun. cbv zeta in Hrun.
  destruct Hrun as (_ & _ & Hres & _). rewrite Htype in Hres.
  change (is_str (VStr "gui_update") "tool_result") with false in Hres.
  rewrite app_nil_r in Hres.
  unfold ScriptTab.script, ScriptTab.scriptResult. rewrite Hres.
  destruct (List.find ScriptTab.has_script (rev (toolResults state))) as [r|] eqn:Hfind.
  - apply find_some in Hfind as [_ Hhas]. unfold ScriptTab.has_script in Hhas.
    apply andb_true_iff in Hhas as [_ ->]. done.
  - simpl. rewrite Hscripts, last_snoc, Hc. done.
Qed.

Lemma X17_script_update_shadowed_witness :
  exists state',
    handleMessage Samples.env Samples.script_revised
      (fst (dispatch Samples.env Samples.script_result (initial, Samples.w0)))
      Samples.w0
    = (Normal state', two_reads Samples.w0)
    /\ ScriptTab.script state' =
         match ScriptTab.scriptResult
                 (fst (dispatch Samples.env Samples.script_result (initial, Samples.w0)))
         with
         | Some _ =>
             ScriptTab.script
               (fst (dispatch Samples.env Samples.script_result (initial, Samples.w0)))
         | None => Normal (VStr "EXT. STREET")
         end.
Proof.
  apply (X17_script_update_shadowed Samples.env Samples.script_revised
           (fst (dispatch Samples.env Samples.script_result (initial, Samples.w0)))
           Samples.w0 "EXT. STREET");
    [reflexivity | reflexivity | reflexivity | discriminate].
Defined.

Lemma dispatch_all_app env pre post sw :
  dispatch_all env (pre ++ post) sw = dispatch_all env post (dispatch_all env pre sw).
Proof. unfold dispatch_all. by rewrite foldl_app. Qed.

Lemma isGenerating_dispatch_all env msgs sw :
  ScriptTab.isGenerating (fst sw) = true ->
  ScriptTab.isGenerating (fst (dispatch_all env msgs sw)) = true.
Proof.
  revert sw. induction msgs as [|msg msgs IH]; intros sw H; [done|].
  change (dispatch_all env (msg :: msgs) sw)
    with (dispatch_all env msgs (dispatch env msg sw)).
  apply IH. unfold ScriptTab.isGenerating. rewrite dispatch_toolCalls, existsb_app.
  unfold ScriptTab.isGenerating in H. by rewrite H.
Qed.

(** X18.  The "generating" indicator never clears.  [ScriptTab] shows it
    while some recorded tool call names [script_writer], and tool calls are
    only ever added.  Once such a [tool_call] has been dispatched the
    indicator is on after every later sequence of messages, the tool's own
    result included. *)
Theorem X18_generating_indicator_stays env pre msg post sw :
  msg !!! "type" = VStr "tool_call" ->
  msg !!! "tool" = VStr "script_writer" ->
  ScriptTab.isGenerating (fst (dispatch_all env (pre ++ msg :: post) sw)) = true.
Proof.
  intros Htype Htool. rewrite dispatch_all_app.
  change (dispatch_all env (msg :: post) ?x)
    with (dispatch_all env post (dispatch env msg x)).
  apply isGenerating_dispatch_all.
  unfold ScriptTab.isGenerating. rewrite dispatch_toolCalls, existsb_app, Htype.
  change (is_str (VStr "tool_call") "tool_call") with true.
  unfold toolCall_of. simpl. rewrite Htool. simpl. by rewrite orb_true_r.
Qed.

Lemma X18_generating_indicator_stays_witness :
  ScriptTab.isGenerating
    (fst (dispatch_all Samples.env ([] ++ Samples.script_call :: [Samples.script_result])
            (initial, Samples.w0))) = true.
Proof.
  apply (X18_generating_indicator_stays Samples.env [] Samples.script_call
           [Samples.script_result] (initial, Samples.w0)); reflexivity.
Defined.
